(** * certificate: the stored form of an X.509 certificate

    A shallow embedding of [certificate/certificate.go] of the TLS
    observatory: the conversion of a parsed [x509.Certificate] into the
    stored [Certificate] ([CertToStored] and its helpers), the fingerprints,
    the trust-store validity map and the [Subject] helpers, followed by the
    properties the specification states about them.

    Conventions of the embedding:
    - a Go [int], [int64] or enum value is a [Z]; the code only compares
      such values, masks them or uses them as table indices;
    - a Go slice is an [option (list A)]: [None] is the nil slice, [Some l]
      a non-nil slice with elements [l];
    - a run-time panic (an index out of range) is the [Panic] result;
    - a Go [string] is a [string], a [[]byte] a [list byte];
    - a pointer argument is the value it points to.

    The Go standard library is modelled as far as the package calls it; the
    hashes and encodings are executable and checked on known values below.
    [ToX509] (the X.509 parser) and the debugging printer of raw extensions
    take no part in the properties and are left out. *)

From Stdlib Require Import ZArith Ascii String Strings.Byte DecimalString.
From coqutil Require Import Z.bitblast.
From stdpp Require Import gmap strings list.

Local Open Scope Z_scope.

(** ** Go run-time: panics, slices, array indexing, maps *)

Inductive result (A : Type) : Type :=
| Ok (a : A)
| Panic.
Arguments Ok {A} a.
Arguments Panic {A}.

Global Instance result_ret : MRet result := λ A a, Ok a.

Global Instance result_bind : MBind result := λ A B k r,
  match r with
  | Ok a => k a
  | Panic => Panic
  end.

Definition slice (A : Type) : Type := option (list A).

(** [make([]T, 0)] *)
Definition make {A} : slice A := Some [].

(** the elements of a slice; the nil slice has none *)
Definition elems {A} (s : slice A) : list A :=
  match s with
  | Some l => l
  | None => []
  end.

Definition len {A} (s : slice A) : Z := Z.of_nat (length (elems s)).

(** [append(s, xs...)]: appending nothing to the nil slice gives the nil
    slice back, every other result is a non-nil slice. *)
Definition append {A} (s : slice A) (xs : list A) : slice A :=
  match s, xs with
  | None, [] => None
  | None, _ :: _ => Some xs
  | Some l, _ => Some (l ++ xs)
  end.

(** [a[i]] on an array or a slice with elements [a]: panics unless
    [0 <= i < len(a)]. *)
Definition array_index {A} (a : list A) (i : Z) : result A :=
  if (0 <=? i) && (i <? Z.of_nat (length a)) then
    match a !! Z.to_nat i with
    | Some x => Ok x
    | None => Panic
    end
  else Panic.

(** [v, ok := m[k]]: the zero value and [false] when the key is absent *)
Definition lookup2 {V} (zero : V) (m : gmap string V) (k : string) : V * bool :=
  match m !! k with
  | Some v => (v, true)
  | None => (zero, false)
  end.

(** ** Go standard library, as far as the package uses it *)

Definition byte_of_Z (z : Z) : byte :=
  match Byte.of_N (Z.to_N (z mod 256)) with
  | Some b => b
  | None => x00
  end.

Definition Z_of_byte (b : byte) : Z := Z.of_N (Byte.to_N b).

Module strings.

(** [strings.Join(a, sep)] *)
Fixpoint Join (a : list string) (sep : string) : string :=
  match a with
  | [] => ""
  | x :: rest =>
      match rest with
      | [] => x
      | _ :: _ => x +:+ sep +:+ Join rest sep
      end
  end.

Definition upper (c : ascii) : ascii :=
  let n := N_of_ascii c in
  if ((97 <=? n) && (n <=? 122))%N then ascii_of_N (n - 32) else c.

(** [strings.ToUpper(s)] on the ASCII letters *)
Fixpoint ToUpper (s : string) : string :=
  match s with
  | EmptyString => EmptyString
  | String c s' => String (upper c) (ToUpper s')
  end.

End strings.

Module strconv.

(** [strconv.Itoa(i)]: decimal, with a leading [-] below zero *)
Definition Itoa (i : Z) : string := NilZero.string_of_int (Z.to_int i).

End strconv.

Module hex.

Definition hextable : list ascii := list_ascii_of_string "0123456789abcdef".

Definition digit (tbl : list ascii) (n : Z) : ascii :=
  nth (Z.to_nat n) tbl "0"%char.

Fixpoint encode (tbl : list ascii) (src : list byte) : string :=
  match src with
  | [] => EmptyString
  | b :: rest =>
      let v := Z_of_byte b in
      String (digit tbl (Z.shiftr v 4))
        (String (digit tbl (Z.land v 15)) (encode tbl rest))
  end.

(** [hex.EncodeToString(src)]: two lower-case digits per byte *)
Definition EncodeToString (src : list byte) : string := encode hextable src.

End hex.

Module fmt.

Definition udigits : list ascii := list_ascii_of_string "0123456789ABCDEF".

(** [fmt.Sprintf("%X", b)] on a byte slice: two upper-case digits per byte *)
Definition SprintfX (b : list byte) : string := hex.encode udigits b.

End fmt.

Module base64.

Definition encodeStd : list ascii :=
  list_ascii_of_string
    "ABCDEFGHIJKLMNOPQRSTUVWXYZabcdefghijklmnopqrstuvwxyz0123456789+/".

Definition char (n : Z) : ascii := nth (Z.to_nat (Z.land n 63)) encodeStd "="%char.

(** [base64.StdEncoding.EncodeToString(src)]: three bytes give four
    characters, a last group of one or two bytes is padded with [=]. *)
Fixpoint EncodeToString (src : list byte) : string :=
  match src with
  | [] => EmptyString
  | [b0] =>
      let v := Z.shiftl (Z_of_byte b0) 16 in
      String (char (Z.shiftr v 18)) (String (char (Z.shiftr v 12)) "==")
  | [b0; b1] =>
      let v := Z.lor (Z.shiftl (Z_of_byte b0) 16) (Z.shiftl (Z_of_byte b1) 8) in
      String (char (Z.shiftr v 18)) (String (char (Z.shiftr v 12))
        (String (char (Z.shiftr v 6)) "="))
  | b0 :: b1 :: b2 :: rest =>
      let v := Z.lor (Z.lor (Z.shiftl (Z_of_byte b0) 16) (Z.shiftl (Z_of_byte b1) 8))
                 (Z_of_byte b2) in
      String (char (Z.shiftr v 18)) (String (char (Z.shiftr v 12))
        (String (char (Z.shiftr v 6)) (String (char v) (EncodeToString rest))))
  end.

(** the value of a character of the alphabet, as [decodeMap] gives it;
    [None] for every other character *)
Fixpoint index_of (c : ascii) (tbl : list ascii) (i : Z) : option Z :=
  match tbl with
  | [] => None
  | x :: rest => if Ascii.eqb x c then Some i else index_of c rest (i + 1)
  end.

Definition value (c : ascii) : option Z := index_of c encodeStd 0.

(** the decoder ignores carriage returns and line feeds wherever they stand *)
Fixpoint strip (s : string) : list ascii :=
  match s with
  | EmptyString => []
  | String c s' =>
      if Ascii.eqb c "010" || Ascii.eqb c "013" then strip s' else c :: strip s'
  end.

(** [CorruptInputError], without the offset it reports *)
Definition CorruptInputError : string := "illegal base64 data".

(** the three bytes of a 24-bit value; a padded group keeps the first one
    or two *)
Definition bytes_of (val : Z) : list byte :=
  [byte_of_Z (Z.shiftr val 16); byte_of_Z (Z.shiftr val 8); byte_of_Z val].

(** the groups of four characters: a full group gives three bytes, a last
    group ending in [=] two and one ending in [==] one; anything else
    (a character outside the alphabet, padding in another place, text after
    the padding, a group cut short) is corrupt: [None]. *)
Fixpoint quanta (src : list ascii) : option (list byte) :=
  match src with
  | [] => Some []
  | c0 :: c1 :: c2 :: c3 :: rest =>
      match value c0, value c1 with
      | Some v0, Some v1 =>
          match value c2, value c3 with
          | Some v2, Some v3 =>
              let val := Z.lor (Z.lor (Z.lor (Z.shiftl v0 18) (Z.shiftl v1 12))
                           (Z.shiftl v2 6)) v3 in
              match quanta rest with
              | Some out => Some (bytes_of val ++ out)
              | None => None
              end
          | Some v2, None =>
              let val := Z.lor (Z.lor (Z.shiftl v0 18) (Z.shiftl v1 12)) (Z.shiftl v2 6) in
              match rest with
              | [] => if Ascii.eqb c3 "=" then Some (take 2 (bytes_of val)) else None
              | _ :: _ => None
              end
          | None, _ =>
              let val := Z.lor (Z.shiftl v0 18) (Z.shiftl v1 12) in
              match rest with
              | [] => if Ascii.eqb c2 "=" && Ascii.eqb c3 "="
                      then Some (take 1 (bytes_of val)) else None
              | _ :: _ => None
              end
          end
      | _, _ => None
      end
  | _ => None
  end.

(** [base64.StdEncoding.DecodeString(s)]: the decoded bytes and a nil
    error, or [CorruptInputError]; the bytes Go returns beside an error are
    not modelled (the package drops them). *)
Definition DecodeString (s : string) : list byte * option string :=
  match quanta (strip s) with
  | Some out => (out, None)
  | None => ([], Some CorruptInputError)
  end.

End base64.

(** *** Hashes

    A [hash.Hash] is modelled by the bytes written to it so far: [New] is
    the empty message, [Write] appends, [Sum] appends the digest of the
    message to its argument and leaves the state as it is.  The digests
    are computed as the Go packages do, block by block over 32-bit words
    (a [Z] reduced modulo [2^32] after every addition and left shift). *)

Module bits.

Definition u32 (x : Z) : Z := x mod 2 ^ 32.

Definition add32 (x y : Z) : Z := u32 (x + y).

Definition not32 (x : Z) : Z := Z.lxor x 0xFFFFFFFF.

(** [bits.RotateLeft32(x, k)], [0 <= k < 32] *)
Definition RotateLeft32 (x k : Z) : Z :=
  Z.lor (u32 (Z.shiftl x k)) (Z.shiftr x (32 - k)).

Definition rotr (x k : Z) : Z := RotateLeft32 x (32 - k).

End bits.

Module binary.

(** big-endian and little-endian 32-bit words *)
Definition be32 (b : list byte) : Z :=
  fold_left (fun acc x => Z.lor (Z.shiftl acc 8) (Z_of_byte x)) (take 4 b) 0.

Definition le32 (b : list byte) : Z := be32 (rev (take 4 b)).

Fixpoint put_be (n : nat) (v : Z) : list byte :=
  match n with
  | O => []
  | S n' => put_be n' (Z.shiftr v 8) ++ [byte_of_Z v]
  end.

Definition put_le (n : nat) (v : Z) : list byte := rev (put_be n v).

Fixpoint words (rd : list byte → Z) (n : nat) (p : list byte) : list Z :=
  match n with
  | O => []
  | S n' => rd p :: words rd n' (drop 4 p)
  end.

(** the message cut into [n] chunks of 64 bytes *)
Fixpoint chunks (n : nat) (p : list byte) : list (list byte) :=
  match n with
  | O => []
  | S n' => take 64 p :: chunks n' (drop 64 p)
  end.

(** the padding of the MD construction: a [0x80] byte, zeros up to 56
    modulo 64, then the bit length in eight bytes ([putlen]) *)
Definition padded (putlen : Z → list byte) (msg : list byte) : list byte :=
  let n := Z.of_nat (length msg) in
  let fill := if n mod 64 <? 56 then 56 - n mod 64 else 64 + 56 - n mod 64 in
  msg ++ x80 :: repeat x00 (Z.to_nat (fill - 1)) ++ putlen (Z.shiftl n 3).

Definition blocks (putlen : Z → list byte) (msg : list byte) : list (list byte) :=
  let p := padded putlen msg in
  chunks (length p / 64) p.

End binary.

Module sha256.

Import bits.

Definition init : list Z :=
  [ 0x6A09E667; 0xBB67AE85; 0x3C6EF372; 0xA54FF53A;
    0x510E527F; 0x9B05688C; 0x1F83D9AB; 0x5BE0CD19 ].

Definition _K : list Z :=
  [ 0x428A2F98; 0x71374491; 0xB5C0FBCF; 0xE9B5DBA5;
    0x3956C25B; 0x59F111F1; 0x923F82A4; 0xAB1C5ED5;
    0xD807AA98; 0x12835B01; 0x243185BE; 0x550C7DC3;
    0x72BE5D74; 0x80DEB1FE; 0x9BDC06A7; 0xC19BF174;
    0xE49B69C1; 0xEFBE4786; 0x0FC19DC6; 0x240CA1CC;
    0x2DE92C6F; 0x4A7484AA; 0x5CB0A9DC; 0x76F988DA;
    0x983E5152; 0xA831C66D; 0xB00327C8; 0xBF597FC7;
    0xC6E00BF3; 0xD5A79147; 0x06CA6351; 0x14292967;
    0x27B70A85; 0x2E1B2138; 0x4D2C6DFC; 0x53380D13;
    0x650A7354; 0x766A0ABB; 0x81C2C92E; 0x92722C85;
    0xA2BFE8A1; 0xA81A664B; 0xC24B8B70; 0xC76C51A3;
    0xD192E819; 0xD6990624; 0xF40E3585; 0x106AA070;
    0x19A4C116; 0x1E376C08; 0x2748774C; 0x34B0BCB5;
    0x391C0CB3; 0x4ED8AA4A; 0x5B9CCA4F; 0x682E6FF3;
    0x748F82EE; 0x78A5636F; 0x84C87814; 0x8CC70208;
    0x90BEFFFA; 0xA4506CEB; 0xBEF9A3F7; 0xC67178F2 ].

Definition at_ (w : list Z) (i : nat) : Z := nth i w 0.

(** [w[i] = t1 + w[i-7] + t2 + w[i-16]] for the next [n] indices *)
Fixpoint schedule (n : nat) (w : list Z) : list Z :=
  match n with
  | O => w
  | S n' =>
      let i := length w in
      let v1 := at_ w (i - 2) in
      let t1 := Z.lxor (Z.lxor (rotr v1 17) (rotr v1 19)) (Z.shiftr v1 10) in
      let v2 := at_ w (i - 15) in
      let t2 := Z.lxor (Z.lxor (rotr v2 7) (rotr v2 18)) (Z.shiftr v2 3) in
      schedule n' (w ++ [add32 (add32 (add32 t1 (at_ w (i - 7))) t2) (at_ w (i - 16))])
  end.

Definition round (st : list Z) (kw : Z * Z) : list Z :=
  match st with
  | [a; b; c; d; e; f; g; h] =>
      let t1 :=
        add32 (add32 (add32 (add32 h
          (Z.lxor (Z.lxor (rotr e 6) (rotr e 11)) (rotr e 25)))
          (Z.lxor (Z.land e f) (Z.land (not32 e) g))) (fst kw)) (snd kw) in
      let t2 :=
        add32 (Z.lxor (Z.lxor (rotr a 2) (rotr a 13)) (rotr a 22))
          (Z.lxor (Z.lxor (Z.land a b) (Z.land a c)) (Z.land b c)) in
      [add32 t1 t2; a; b; c; add32 d t1; e; f; g]
  | _ => st
  end.

Definition block (h : list Z) (p : list byte) : list Z :=
  let w := schedule 48 (binary.words binary.be32 16 p) in
  zip_with add32 h (fold_left round (zip _K w) h).

(** [sha256.Sum256(data)] *)
Definition Sum256 (data : list byte) : list byte :=
  flat_map (binary.put_be 4) (fold_left block (binary.blocks (binary.put_be 8) data) init).

Definition New : list byte := [].
Definition Write (h p : list byte) : list byte := h ++ p.
Definition Sum (h b : list byte) : list byte := b ++ Sum256 h.

End sha256.

Module sha1.

Import bits.

Definition init : list Z :=
  [ 0x67452301; 0xEFCDAB89; 0x98BADCFE; 0x10325476; 0xC3D2E1F0 ].

(** [w[i] = rotl(w[i-3] ^ w[i-8] ^ w[i-14] ^ w[i-16], 1)] *)
Fixpoint schedule (n : nat) (w : list Z) : list Z :=
  match n with
  | O => w
  | S n' =>
      let i := length w in
      let x i := nth i w 0 in
      let tmp := Z.lxor (Z.lxor (Z.lxor (x (i - 3)%nat) (x (i - 8)%nat)) (x (i - 14)%nat))
                   (x (i - 16)%nat) in
      schedule n' (w ++ [RotateLeft32 tmp 1])
  end.

(** the round function and constant of step [i] *)
Definition f (i b c d : Z) : Z :=
  if i <? 20 then Z.lor (Z.land b c) (Z.land (not32 b) d)
  else if i <? 40 then Z.lxor (Z.lxor b c) d
  else if i <? 60 then Z.lor (Z.land (Z.lor b c) d) (Z.land b c)
  else Z.lxor (Z.lxor b c) d.

Definition _K (i : Z) : Z :=
  if i <? 20 then 0x5A827999
  else if i <? 40 then 0x6ED9EBA1
  else if i <? 60 then 0x8F1BBCDC
  else 0xCA62C1D6.

Definition round (st : list Z) (iw : Z * Z) : list Z :=
  match st with
  | [a; b; c; d; e] =>
      let i := fst iw in
      let t := add32 (add32 (add32 (add32 (RotateLeft32 a 5) (f i b c d)) e) (snd iw)) (_K i) in
      [t; a; RotateLeft32 b 30; c; d]
  | _ => st
  end.

Definition block (h : list Z) (p : list byte) : list Z :=
  let w := schedule 64 (binary.words binary.be32 16 p) in
  zip_with add32 h (fold_left round (zip (seqZ 0 80) w) h).

(** [sha1.Sum(data)] *)
Definition Sum (data : list byte) : list byte :=
  flat_map (binary.put_be 4) (fold_left block (binary.blocks (binary.put_be 8) data) init).

End sha1.

Module md5.

Import bits.

Definition init : list Z := [ 0x67452301; 0xEFCDAB89; 0x98BADCFE; 0x10325476 ].

Definition table : list Z :=
  [ 0xD76AA478; 0xE8C7B756; 0x242070DB; 0xC1BDCEEE;
    0xF57C0FAF; 0x4787C62A; 0xA8304613; 0xFD469501;
    0x698098D8; 0x8B44F7AF; 0xFFFF5BB1; 0x895CD7BE;
    0x6B901122; 0xFD987193; 0xA679438E; 0x49B40821;
    0xF61E2562; 0xC040B340; 0x265E5A51; 0xE9B6C7AA;
    0xD62F105D; 0x02441453; 0xD8A1E681; 0xE7D3FBC8;
    0x21E1CDE6; 0xC33707D6; 0xF4D50D87; 0x455A14ED;
    0xA9E3E905; 0xFCEFA3F8; 0x676F02D9; 0x8D2A4C8A;
    0xFFFA3942; 0x8771F681; 0x6D9D6122; 0xFDE5380C;
    0xA4BEEA44; 0x4BDECFA9; 0xF6BB4B60; 0xBEBFBC70;
    0x289B7EC6; 0xEAA127FA; 0xD4EF3085; 0x04881D05;
    0xD9D4D039; 0xE6DB99E5; 0x1FA27CF8; 0xC4AC5665;
    0xF4292244; 0x432AFF97; 0xAB9423A7; 0xFC93A039;
    0x655B59C3; 0x8F0CCC92; 0xFFEFF47D; 0x85845DD1;
    0x6FA87E4F; 0xFE2CE6E0; 0xA3014314; 0x4E0811A1;
    0xF7537E82; 0xBD3AF235; 0x2AD7D2BB; 0xEB86D391 ].

Definition shifts : list Z :=
  [ 7; 12; 17; 22; 5; 9; 14; 20; 4; 11; 16; 23; 6; 10; 15; 21 ].

(** the shift of step [i]: four per round, used in turn *)
Definition shift (i : Z) : Z := nth (Z.to_nat (4 * (i / 16) + i mod 4)) shifts 0.

(** the message word step [i] reads *)
Definition word (i : Z) : Z :=
  if i <? 16 then i
  else if i <? 32 then (5 * i + 1) mod 16
  else if i <? 48 then (3 * i + 5) mod 16
  else (7 * i) mod 16.

Definition f (i b c d : Z) : Z :=
  if i <? 16 then Z.lor (Z.land b c) (Z.land (not32 b) d)
  else if i <? 32 then Z.lor (Z.land b d) (Z.land c (not32 d))
  else if i <? 48 then Z.lxor (Z.lxor b c) d
  else Z.lxor c (Z.lor b (not32 d)).

Definition round (x : list Z) (st : list Z) (it : Z * Z) : list Z :=
  match st with
  | [a; b; c; d] =>
      let i := fst it in
      let v := add32 (add32 (add32 a (f i b c d)) (nth (Z.to_nat (word i)) x 0)) (snd it) in
      [d; add32 b (RotateLeft32 v (shift i)); b; c]
  | _ => st
  end.

Definition block (h : list Z) (p : list byte) : list Z :=
  let x := binary.words binary.le32 16 p in
  zip_with add32 h (fold_left (round x) (zip (seqZ 0 64) table) h).

(** [md5.Sum(data)] *)
Definition Sum (data : list byte) : list byte :=
  flat_map (binary.put_le 4) (fold_left block (binary.blocks (binary.put_le 8) data) init).

End md5.

(** *** Big integers, object identifiers, time *)

Module big.

(** [x.BitLen()]: the length of the absolute value in bits, 0 for 0 *)
Definition BitLen (x : Z) : Z :=
  if Z.abs x =? 0 then 0 else Z.log2 (Z.abs x) + 1.

(** [x.Bytes()]: the absolute value, big-endian, without leading zeros *)
Definition Bytes (x : Z) : list byte :=
  binary.put_be (Z.to_nat ((BitLen x + 7) / 8)) (Z.abs x).

(** [x.String()] *)
Definition String (x : Z) : string := strconv.Itoa x.

(** [x.MarshalText()]: the decimal text; the error is always nil *)
Definition MarshalText (x : Z) : string * option string := (String x, None).

End big.

Module asn1.

(** [asn1.ObjectIdentifier] and its [String()]: the arcs in decimal,
    joined by dots *)
Definition ObjectIdentifier : Type := list Z.

Definition String (oi : ObjectIdentifier) : string :=
  strings.Join (strconv.Itoa <$> oi) ".".

End asn1.

Module time.

(** an instant with the location it is displayed in *)
Record Time := { instant : Z; location : string }.

Definition UTC (t : Time) : Time := {| instant := instant t; location := "UTC" |}.

End time.

(** *** Public keys and parsed certificates *)

Module rsa.
Record PublicKey := { N : Z; E : Z }.
End rsa.

Module dsa.
Record PublicKey := { P : Z; Q : Z; G : Z; Y : Z }.
End dsa.

Module elliptic.
Record CurveParams := { BitSize : Z; Name : string }.
End elliptic.

Module ecdsa.
Record PublicKey := { Curve : elliptic.CurveParams; X : Z; Y : Z }.
End ecdsa.

Module crypto.

(** the dynamic type of the [PublicKey interface{}] of a parsed
    certificate: one of the three key types of the type switches, or
    anything else (nil for an algorithm the parser does not know) *)
Inductive PublicKey :=
| RSA (pub : rsa.PublicKey)
| DSA (pub : dsa.PublicKey)
| ECDSA (pub : ecdsa.PublicKey)
| Other.

End crypto.

Module pkix.

Record Name := {
  Country : slice string;
  Organization : slice string;
  OrganizationalUnit : slice string;
  CommonName : string;
}.

End pkix.

Module x509.

Definition KeyUsageDigitalSignature : Z := 1.
Definition KeyUsageContentCommitment : Z := 2.
Definition KeyUsageKeyEncipherment : Z := 4.
Definition KeyUsageDataEncipherment : Z := 8.
Definition KeyUsageKeyAgreement : Z := 16.
Definition KeyUsageCertSign : Z := 32.
Definition KeyUsageCRLSign : Z := 64.
Definition KeyUsageEncipherOnly : Z := 128.
Definition KeyUsageDecipherOnly : Z := 256.

(** the fields of [x509.Certificate] the package reads *)
Record Certificate := {
  Raw : list byte;
  RawSubjectPublicKeyInfo : list byte;
  RawSubject : list byte;
  SignatureAlgorithm : Z;
  PublicKeyAlgorithm : Z;
  PublicKey : crypto.PublicKey;
  Version : Z;
  SerialNumber : Z;
  Issuer : pkix.Name;
  Subject : pkix.Name;
  NotBefore : time.Time;
  NotAfter : time.Time;
  KeyUsage : Z;
  ExtKeyUsage : slice Z;
  UnknownExtKeyUsage : slice asn1.ObjectIdentifier;
  BasicConstraintsValid : bool;
  IsCA : bool;
  SubjectKeyId : list byte;
  AuthorityKeyId : list byte;
  DNSNames : slice string;
  PermittedDNSDomains : slice string;
  CRLDistributionPoints : slice string;
  PolicyIdentifiers : slice asn1.ObjectIdentifier;
}.

End x509.

(** ** Package certificate *)

Definition Ubuntu_TS_name : string := "Ubuntu".
Definition Mozilla_TS_name : string := "Mozilla".
Definition Microsoft_TS_name : string := "Microsoft".
Definition Apple_TS_name : string := "Apple".
Definition Android_TS_name : string := "Android".

Module Hashes.

Record t := {
  MD5 : string;
  SHA1 : string;
  SHA256 : string;
  SHA256SubjectSPKI : string;
  PKPSHA256 : string;
}.

End Hashes.

Module Validity.

Record t := { NotBefore : time.Time; NotAfter : time.Time }.

End Validity.

Module Subject.

Record t := {
  ID : Z;
  Country : slice string;
  Organisation : slice string;
  OrgUnit : slice string;
  CommonName : string;
}.

(** [func (s Subject) String() string] *)
Definition String (s : t) : string :=
  let comp : slice string := None in
  let comp :=
    if 0 <? len (Country s)
    then append comp ["C=" +:+ strings.Join (elems (Country s)) ", C="]
    else comp in
  let comp :=
    if 0 <? len (Organisation s)
    then append comp ["O=" +:+ strings.Join (elems (Organisation s)) ", O="]
    else comp in
  let comp :=
    if 0 <? len (OrgUnit s)
    then append comp ["OU=" +:+ strings.Join (elems (OrgUnit s)) ", OU="]
    else comp in
  let comp :=
    if 0 <? Z.of_nat (String.length (CommonName s))
    then append comp ["CN=" +:+ CommonName s]
    else comp in
  strings.Join (elems comp) ", ".

End Subject.

Module SubjectPublicKeyInfo.

(** [Size] and [Exponent] are [float64] in the source; they only ever
    hold converted integers, kept as integers here. *)
Record t := {
  Alg : string;
  Size : Z;
  Exponent : Z;
  X : string;
  Y : string;
  P : string;
  Q : string;
  G : string;
  Curve : string;
}.

Definition set_Size (k : t) (v : Z) : t :=
  {| Alg := Alg k; Size := v; Exponent := Exponent k; X := X k; Y := Y k;
     P := P k; Q := Q k; G := G k; Curve := Curve k |}.
Definition set_Exponent (k : t) (v : Z) : t :=
  {| Alg := Alg k; Size := Size k; Exponent := v; X := X k; Y := Y k;
     P := P k; Q := Q k; G := G k; Curve := Curve k |}.
Definition set_X (k : t) (v : string) : t :=
  {| Alg := Alg k; Size := Size k; Exponent := Exponent k; X := v; Y := Y k;
     P := P k; Q := Q k; G := G k; Curve := Curve k |}.
Definition set_Y (k : t) (v : string) : t :=
  {| Alg := Alg k; Size := Size k; Exponent := Exponent k; X := X k; Y := v;
     P := P k; Q := Q k; G := G k; Curve := Curve k |}.
Definition set_P (k : t) (v : string) : t :=
  {| Alg := Alg k; Size := Size k; Exponent := Exponent k; X := X k; Y := Y k;
     P := v; Q := Q k; G := G k; Curve := Curve k |}.
Definition set_Q (k : t) (v : string) : t :=
  {| Alg := Alg k; Size := Size k; Exponent := Exponent k; X := X k; Y := Y k;
     P := P k; Q := v; G := G k; Curve := Curve k |}.
Definition set_G (k : t) (v : string) : t :=
  {| Alg := Alg k; Size := Size k; Exponent := Exponent k; X := X k; Y := Y k;
     P := P k; Q := Q k; G := v; Curve := Curve k |}.
Definition set_Curve (k : t) (v : string) : t :=
  {| Alg := Alg k; Size := Size k; Exponent := Exponent k; X := X k; Y := Y k;
     P := P k; Q := Q k; G := G k; Curve := v |}.

End SubjectPublicKeyInfo.

Module Extensions.

Record t := {
  AuthorityKeyId : string;
  SubjectKeyId : string;
  KeyUsage : slice string;
  ExtendedKeyUsage : slice string;
  SubjectAlternativeName : slice string;
  CRLDistributionPoints : slice string;
  PolicyIdentifiers : slice string;
  IsNameConstrained : bool;
  PermittedNames : slice string;
}.

Definition set_IsNameConstrained (e : t) (v : bool) : t :=
  {| AuthorityKeyId := AuthorityKeyId e; SubjectKeyId := SubjectKeyId e;
     KeyUsage := KeyUsage e; ExtendedKeyUsage := ExtendedKeyUsage e;
     SubjectAlternativeName := SubjectAlternativeName e;
     CRLDistributionPoints := CRLDistributionPoints e;
     PolicyIdentifiers := PolicyIdentifiers e;
     IsNameConstrained := v; PermittedNames := PermittedNames e |}.

End Extensions.

Module ValidationInfo.

Record t := { IsValid : bool; ValidationError : string }.

Definition zero : t := {| IsValid := false; ValidationError := "" |}.

End ValidationInfo.

Module Certificate.

(** [Analysis] is an [interface{}] the package never sets: [None] is nil. *)
Record t := {
  ID : Z;
  Serial : string;
  ScanTarget : string;
  IPs : slice string;
  Version : Z;
  SignatureAlgorithm : string;
  Issuer : Subject.t;
  Validity : Validity.t;
  Subject : Subject.t;
  Key : SubjectPublicKeyInfo.t;
  X509v3Extensions : Extensions.t;
  X509v3BasicConstraints : string;
  CA : bool;
  Analysis : option string;
  ParentSignature : slice string;
  ValidationInfo : gmap string ValidationInfo.t;
  FirstSeenTimestamp : time.Time;
  LastSeenTimestamp : time.Time;
  Hashes : Hashes.t;
  Raw : string;
  Anomalies : string;
}.

(** [GetBooleanValidity] converts the validation info map to DB booleans:
    (trusted_ubuntu, trusted_mozilla, trusted_microsoft, trusted_apple,
    trusted_android). *)
Definition GetBooleanValidity (c : t) : bool * bool * bool * bool * bool :=
  let '(valInfo, ok) := lookup2 ValidationInfo.zero (ValidationInfo c) Ubuntu_TS_name in
  let trusted_ubuntu :=
    if negb ok then false else ValidationInfo.IsValid valInfo in
  let '(valInfo, ok) := lookup2 ValidationInfo.zero (ValidationInfo c) Mozilla_TS_name in
  let trusted_mozilla :=
    if negb ok then false else ValidationInfo.IsValid valInfo in
  let '(valInfo, ok) := lookup2 ValidationInfo.zero (ValidationInfo c) Microsoft_TS_name in
  let trusted_microsoft :=
    if negb ok then false else ValidationInfo.IsValid valInfo in
  let '(valInfo, ok) := lookup2 ValidationInfo.zero (ValidationInfo c) Apple_TS_name in
  let trusted_apple :=
    if negb ok then false else ValidationInfo.IsValid valInfo in
  let '(valInfo, ok) := lookup2 ValidationInfo.zero (ValidationInfo c) Android_TS_name in
  let trusted_android :=
    if negb ok then false else ValidationInfo.IsValid valInfo in
  (trusted_ubuntu, trusted_mozilla, trusted_microsoft, trusted_apple, trusted_android).

(** [for i, _ := range xs { if xs[i] != ys[i] { return false } }], from
    index [i] on: [Ok true] when the loop returns, [Ok false] when it runs
    to its end, [Panic] when [ys[i]] is out of range. *)
Fixpoint differs_from (i : Z) (xs ys : list string) : result bool :=
  match xs with
  | [] => Ok false
  | x :: rest =>
      y ← array_index ys i;
      if negb (String.eqb x y) then Ok true else differs_from (i + 1) rest ys
  end.

(** [IsSelfSigned]: the subject and issuer fields are identical *)
Definition IsSelfSigned (c : t) : result bool :=
  if negb (String.eqb (Subject.CommonName (Subject c)) (Subject.CommonName (Issuer c)))
     || negb (len (Subject.Organisation (Subject c)) =? len (Subject.Organisation (Issuer c)))
     || negb (len (Subject.OrgUnit (Subject c)) =? len (Subject.OrgUnit (Issuer c)))
     || negb (len (Subject.Country (Subject c)) =? len (Subject.Country (Issuer c)))
  then Ok false
  else
    d ← differs_from 0 (elems (Subject.Organisation (Subject c)))
          (elems (Subject.Organisation (Issuer c)));
    if d : bool then Ok false else
    d ← differs_from 0 (elems (Subject.OrgUnit (Subject c)))
          (elems (Subject.OrgUnit (Issuer c)));
    if d : bool then Ok false else
    d ← differs_from 0 (elems (Subject.Country (Subject c)))
          (elems (Subject.Country (Issuer c)));
    if d : bool then Ok false else
    Ok true.

End Certificate.

Definition SignatureAlgorithm : list string :=
  [ "UnknownSignatureAlgorithm";
    "MD2WithRSA";
    "MD5WithRSA";
    "SHA1WithRSA";
    "SHA256WithRSA";
    "SHA384WithRSA";
    "SHA512WithRSA";
    "DSAWithSHA1";
    "DSAWithSHA256";
    "ECDSAWithSHA1";
    "ECDSAWithSHA256";
    "ECDSAWithSHA384";
    "ECDSAWithSHA512" ].

Definition ExtKeyUsage : list string :=
  [ "ExtKeyUsageAny";
    "ExtKeyUsageServerAuth";
    "ExtKeyUsageClientAuth";
    "ExtKeyUsageCodeSigning";
    "ExtKeyUsageEmailProtection";
    "ExtKeyUsageIPSECEndSystem";
    "ExtKeyUsageIPSECTunnel";
    "ExtKeyUsageIPSECUser";
    "ExtKeyUsageTimeStamping";
    "ExtKeyUsageOCSPSigning";
    "ExtKeyUsageMicrosoftServerGatedCrypto";
    "ExtKeyUsageNetscapeServerGatedCrypto" ].

Definition PublicKeyAlgorithm : list string :=
  [ "UnknownPublicKeyAlgorithm";
    "RSA";
    "DSA";
    "ECDSA" ].

Definition SHA256SubjectSPKI (cert : x509.Certificate) : string :=
  let h := sha256.New in
  let h := sha256.Write h (x509.RawSubject cert) in
  let h := sha256.Write h (x509.RawSubjectPublicKeyInfo cert) in
  fmt.SprintfX (sha256.Sum h []).

Definition SHA256Hash (data : list byte) : string :=
  let h := sha256.Sum256 data in
  fmt.SprintfX h.

Definition MD5Hash (data : list byte) : string :=
  let h := md5.Sum data in
  fmt.SprintfX h.

Definition SHA1Hash (data : list byte) : string :=
  let h := sha1.Sum data in
  fmt.SprintfX h.

(** [GetValidityMap] converts boolean validity variables to a validity map. *)
Definition GetValidityMap
    (trusted_ubuntu trusted_mozilla trusted_microsoft trusted_apple trusted_android : bool)
    : gmap string ValidationInfo.t :=
  let vUbuntu := {| ValidationInfo.IsValid := trusted_ubuntu; ValidationInfo.ValidationError := "" |} in
  let vMozilla := {| ValidationInfo.IsValid := trusted_mozilla; ValidationInfo.ValidationError := "" |} in
  let vMicrosoft := {| ValidationInfo.IsValid := trusted_microsoft; ValidationInfo.ValidationError := "" |} in
  let vApple := {| ValidationInfo.IsValid := trusted_apple; ValidationInfo.ValidationError := "" |} in
  let vAndroid := {| ValidationInfo.IsValid := trusted_android; ValidationInfo.ValidationError := "" |} in
  let m : gmap string ValidationInfo.t := ∅ in
  let m := <[Ubuntu_TS_name := vUbuntu]> m in
  let m := <[Mozilla_TS_name := vMozilla]> m in
  let m := <[Microsoft_TS_name := vMicrosoft]> m in
  let m := <[Apple_TS_name := vApple]> m in
  let m := <[Android_TS_name := vAndroid]> m in
  m.

(** [for _, x := range xs { s = body(s, x) }], where the body may panic *)
Fixpoint for_range {A S} (xs : list A) (body : S → A → result S) (s : S) : result S :=
  match xs with
  | [] => Ok s
  | x :: rest => s' ← body s x; for_range rest body s'
  end.

Definition getExtKeyUsages (cert : x509.Certificate) : result (slice string) :=
  let usage : slice string := make in
  usage ← for_range (elems (x509.ExtKeyUsage cert))
             (fun usage eku => name ← array_index ExtKeyUsage eku; Ok (append usage [name]))
             usage;
  usage ← for_range (elems (x509.UnknownExtKeyUsage cert))
             (fun usage unknownEku => Ok (append usage [asn1.String unknownEku]))
             usage;
  Ok usage.

Definition getPolicyIdentifiers (cert : x509.Certificate) : slice string :=
  let identifiers : slice string := make in
  fold_left (fun identifiers pi => append identifiers [asn1.String pi])
    (elems (x509.PolicyIdentifiers cert)) identifiers.

Definition getKeyUsages (cert : x509.Certificate) : slice string :=
  let usage : slice string := make in
  let keyUsage := x509.KeyUsage cert in
  let usage :=
    if negb (Z.land keyUsage x509.KeyUsageDigitalSignature =? 0)
    then append usage ["Digital Signature"] else usage in
  let usage :=
    if negb (Z.land keyUsage x509.KeyUsageContentCommitment =? 0)
    then append usage ["Non Repudiation"] else usage in
  let usage :=
    if negb (Z.land keyUsage x509.KeyUsageKeyEncipherment =? 0)
    then append usage ["Key Encipherment"] else usage in
  let usage :=
    if negb (Z.land keyUsage x509.KeyUsageDataEncipherment =? 0)
    then append usage ["Data Encipherment"] else usage in
  let usage :=
    if negb (Z.land keyUsage x509.KeyUsageKeyAgreement =? 0)
    then append usage ["Key Agreement"] else usage in
  let usage :=
    if negb (Z.land keyUsage x509.KeyUsageCertSign =? 0)
    then append usage ["Certificate Sign"] else usage in
  let usage :=
    if negb (Z.land keyUsage x509.KeyUsageCRLSign =? 0)
    then append usage ["CRL Sign"] else usage in
  let usage :=
    if negb (Z.land keyUsage x509.KeyUsageEncipherOnly =? 0)
    then append usage ["Encipher Only"] else usage in
  let usage :=
    if negb (Z.land keyUsage x509.KeyUsageDecipherOnly =? 0)
    then append usage ["Decipher Only"] else usage in
  usage.

(** [getCertExtensions] stores the extensions the parser already decoded *)
Definition getCertExtensions (cert : x509.Certificate) : result Extensions.t :=
  let san : slice string := make in
  let san := append san (elems (x509.DNSNames cert)) in
  let crld : slice string := make in
  let crld := append crld (elems (x509.CRLDistributionPoints cert)) in
  let pnames : slice string := make in
  let pnames := append pnames (elems (x509.PermittedDNSDomains cert)) in
  let keyUsage := getKeyUsages cert in
  extKeyUsage ← getExtKeyUsages cert;
  let ext :=
    {| Extensions.AuthorityKeyId := base64.EncodeToString (x509.AuthorityKeyId cert);
       Extensions.SubjectKeyId := base64.EncodeToString (x509.SubjectKeyId cert);
       Extensions.KeyUsage := keyUsage;
       Extensions.ExtendedKeyUsage := extKeyUsage;
       Extensions.PolicyIdentifiers := getPolicyIdentifiers cert;
       Extensions.SubjectAlternativeName := san;
       Extensions.CRLDistributionPoints := crld;
       Extensions.IsNameConstrained := false;
       Extensions.PermittedNames := pnames |} in
  let ext :=
    if 0 <? len (Extensions.PermittedNames ext)
    then Extensions.set_IsNameConstrained ext true
    else ext in
  Ok ext.

Definition getPublicKeyInfo (cert : x509.Certificate)
    : result (SubjectPublicKeyInfo.t * option string) :=
  alg ← array_index PublicKeyAlgorithm (x509.PublicKeyAlgorithm cert);
  let pubInfo :=
    {| SubjectPublicKeyInfo.Alg := alg;
       SubjectPublicKeyInfo.Size := 0;
       SubjectPublicKeyInfo.Exponent := 0;
       SubjectPublicKeyInfo.X := "";
       SubjectPublicKeyInfo.Y := "";
       SubjectPublicKeyInfo.P := "";
       SubjectPublicKeyInfo.Q := "";
       SubjectPublicKeyInfo.G := "";
       SubjectPublicKeyInfo.Curve := "" |} in
  match x509.PublicKey cert with
  | crypto.RSA pub =>
      let pubInfo := SubjectPublicKeyInfo.set_Size pubInfo (big.BitLen (rsa.N pub)) in
      let pubInfo := SubjectPublicKeyInfo.set_Exponent pubInfo (rsa.E pub) in
      Ok (pubInfo, None)
  | crypto.DSA pub =>
      let pubInfo := SubjectPublicKeyInfo.set_Size pubInfo (big.BitLen (dsa.Y pub)) in
      let '(textInt, err) := big.MarshalText (dsa.G pub) in
      match err with
      | Some _ => Ok (pubInfo, err)
      | None =>
          let pubInfo := SubjectPublicKeyInfo.set_G pubInfo textInt in
          let '(textInt, err) := big.MarshalText (dsa.P pub) in
          match err with
          | Some _ => Ok (pubInfo, err)
          | None =>
              let pubInfo := SubjectPublicKeyInfo.set_P pubInfo textInt in
              let '(textInt, err) := big.MarshalText (dsa.Q pub) in
              match err with
              | Some _ => Ok (pubInfo, err)
              | None =>
                  let pubInfo := SubjectPublicKeyInfo.set_Q pubInfo textInt in
                  let '(textInt, err) := big.MarshalText (dsa.Y pub) in
                  match err with
                  | Some _ => Ok (pubInfo, err)
                  | None =>
                      let pubInfo := SubjectPublicKeyInfo.set_Y pubInfo textInt in
                      Ok (pubInfo, None)
                  end
              end
          end
      end
  | crypto.ECDSA pub =>
      let pubInfo :=
        SubjectPublicKeyInfo.set_Size pubInfo (elliptic.BitSize (ecdsa.Curve pub)) in
      let pubInfo :=
        SubjectPublicKeyInfo.set_Curve pubInfo (elliptic.Name (ecdsa.Curve pub)) in
      let pubInfo := SubjectPublicKeyInfo.set_Y pubInfo (big.String (ecdsa.Y pub)) in
      let pubInfo := SubjectPublicKeyInfo.set_X pubInfo (big.String (ecdsa.X pub)) in
      Ok (pubInfo, None)
  | crypto.Other => Ok (pubInfo, None)
  end.

Section Stored.

(** [x509.MarshalPKIXPublicKey]: the DER encoding of a public key and an
    error; the ASN.1 encoder is not part of the package and every result
    below holds for any encoder. *)
Variable MarshalPKIXPublicKey : crypto.PublicKey → list byte * option string.

Definition PKPSHA256Hash (cert : x509.Certificate) : string :=
  let h := sha256.New in
  let h :=
    match x509.PublicKey cert with
    | crypto.RSA pub =>
        let '(der, _) := MarshalPKIXPublicKey (crypto.RSA pub) in
        sha256.Write h der
    | crypto.DSA pub =>
        let '(der, _) := MarshalPKIXPublicKey (crypto.DSA pub) in
        sha256.Write h der
    | crypto.ECDSA pub =>
        let '(der, _) := MarshalPKIXPublicKey (crypto.ECDSA pub) in
        sha256.Write h der
    | crypto.Other => h
    end in
  base64.EncodeToString (sha256.Sum h []).

(** [CertToStored] returns a Certificate struct created from a
    [x509.Certificate].  [now] is the value [time.Now()] returns; the log
    line written when [getPublicKeyInfo] reports an error is not part of
    the result. *)
Definition CertToStored (cert : x509.Certificate)
    (parentSignature domain ip TSName : string) (valInfo : ValidationInfo.t)
    (now : time.Time) : result Certificate.t :=
  let ParentSignature : slice string := make in
  let IPs : slice string := make in
  let Version := x509.Version cert in
  let Serial := strings.ToUpper (hex.EncodeToString (big.Bytes (x509.SerialNumber cert))) in
  sigAlg ← array_index SignatureAlgorithm (x509.SignatureAlgorithm cert);
  '(Key, err) ← getPublicKeyInfo cert;
  let Issuer :=
    {| Subject.ID := 0;
       Subject.Country := pkix.Country (x509.Issuer cert);
       Subject.Organisation := pkix.Organization (x509.Issuer cert);
       Subject.OrgUnit := pkix.OrganizationalUnit (x509.Issuer cert);
       Subject.CommonName := pkix.CommonName (x509.Issuer cert) |} in
  let Subject :=
    {| Subject.ID := 0;
       Subject.Country := pkix.Country (x509.Subject cert);
       Subject.Organisation := pkix.Organization (x509.Subject cert);
       Subject.OrgUnit := pkix.OrganizationalUnit (x509.Subject cert);
       Subject.CommonName := pkix.CommonName (x509.Subject cert) |} in
  let Validity :=
    {| Validity.NotBefore := time.UTC (x509.NotBefore cert);
       Validity.NotAfter := time.UTC (x509.NotAfter cert) |} in
  X509v3Extensions ← getCertExtensions cert;
  let '(X509v3BasicConstraints, CA) :=
    if x509.Version cert <? 3 then
      ("", x509.IsCA cert)
    else if x509.BasicConstraintsValid cert then
      ("Critical", x509.IsCA cert)
    else
      ("", false) in
  let t := time.UTC now in
  let ParentSignature := append ParentSignature [parentSignature] in
  let '(ScanTarget, IPs) :=
    if negb (x509.IsCA cert) then (domain, append IPs [ip]) else ("", IPs) in
  let ValidationInfo : gmap string ValidationInfo.t := ∅ in
  let ValidationInfo := <[TSName := valInfo]> ValidationInfo in
  let Hashes :=
    {| Hashes.MD5 := MD5Hash (x509.Raw cert);
       Hashes.SHA1 := SHA1Hash (x509.Raw cert);
       Hashes.SHA256 := SHA256Hash (x509.Raw cert);
       Hashes.SHA256SubjectSPKI := SHA256SubjectSPKI cert;
       Hashes.PKPSHA256 := PKPSHA256Hash cert |} in
  Ok {| Certificate.ID := 0;
        Certificate.Serial := Serial;
        Certificate.ScanTarget := ScanTarget;
        Certificate.IPs := IPs;
        Certificate.Version := Version;
        Certificate.SignatureAlgorithm := sigAlg;
        Certificate.Issuer := Issuer;
        Certificate.Validity := Validity;
        Certificate.Subject := Subject;
        Certificate.Key := Key;
        Certificate.X509v3Extensions := X509v3Extensions;
        Certificate.X509v3BasicConstraints := X509v3BasicConstraints;
        Certificate.CA := CA;
        Certificate.Analysis := None;
        Certificate.ParentSignature := ParentSignature;
        Certificate.ValidationInfo := ValidationInfo;
        Certificate.FirstSeenTimestamp := t;
        Certificate.LastSeenTimestamp := t;
        Certificate.Hashes := Hashes;
        Certificate.Raw := base64.EncodeToString (x509.Raw cert);
        Certificate.Anomalies := "" |}.

End Stored.

Section Parsed.

(** [x509.ParseCertificate]: the certificate parsed from a DER body (nil
    with an error when it does not parse); the parser is not part of the
    package. *)
Variable ParseCertificate : list byte → option x509.Certificate * option string.

(** [ToX509] returns the crypto/x509 version of a certificate *)
Definition ToX509 (cert : Certificate.t) : option x509.Certificate * option string :=
  let '(certRaw, err) := base64.DecodeString (Certificate.Raw cert) in
  match err with
  | Some _ => (None, err)
  | None => ParseCertificate certRaw
  end.

End Parsed.

(** ** The specification's words

    Definitions that follow the wording of the specification, to be
    compared with the functions above. *)

(** The five trust-store names. *)
Definition trust_stores : gset string :=
  {[ Ubuntu_TS_name; Mozilla_TS_name; Microsoft_TS_name; Apple_TS_name; Android_TS_name ]}.

(** A store's verdict in a validation map: the [isValid] of its entry, and
    [false] when the store has no entry. *)
Definition valid_in (m : gmap string ValidationInfo.t) (store : string) : bool :=
  match m !! store with
  | Some v => ValidationInfo.IsValid v
  | None => false
  end.

(** The components of the subject display format, in the canonical order
    C, O, OU, CN: one per list element, and the common name when it is not
    empty. *)
Definition components (s : Subject.t) : list string :=
  ((λ x, "C=" +:+ x) <$> elems (Subject.Country s))
  ++ ((λ x, "O=" +:+ x) <$> elems (Subject.Organisation s))
  ++ ((λ x, "OU=" +:+ x) <$> elems (Subject.OrgUnit s))
  ++ (if String.eqb (Subject.CommonName s) "" then [] else ["CN=" +:+ Subject.CommonName s]).

(** Every component but the last is followed by the separator, the last
    one by nothing. *)
Fixpoint separated (comps : list string) (last : string) : string :=
  match comps with
  | [] => last
  | c :: rest => c +:+ ", " +:+ separated rest last
  end.

(** What [Subject.String] appends for one list: nothing when the list is
    empty, else one string holding all its elements. *)
Definition group (prefix : string) (xs : list string) : list string :=
  match xs with
  | [] => []
  | _ :: _ => [prefix +:+ strings.Join xs (", " +:+ prefix)]
  end.

(** Two lists have equal length and equal elements at every index. *)
Definition same_elements (xs ys : list string) : Prop :=
  length xs = length ys ∧ ∀ i : nat, (i < length xs)%nat → xs !! i = ys !! i.

(** ** Words of the further properties *)

(** The names of the key-usage bits, bit 0 first. *)
Definition key_usage_names : list string :=
  [ "Digital Signature"; "Non Repudiation"; "Key Encipherment";
    "Data Encipherment"; "Key Agreement"; "Certificate Sign"; "CRL Sign";
    "Encipher Only"; "Decipher Only" ].

(** The names whose bit is set in [bitmap], the first name standing for
    bit [i]. *)
Fixpoint set_bits (i : Z) (names : list string) (bitmap : Z) : list string :=
  match names with
  | [] => []
  | name :: rest =>
      (if Z.testbit bitmap i then [name] else []) ++ set_bits (i + 1) rest bitmap
  end.

(** A text of upper-case hexadecimal digits. *)
Definition upper_hex (s : string) : Prop :=
  Forall (λ c, c ∈ fmt.udigits) (list_ascii_of_string s).

(** ** Example inputs *)

(** A stand-in for the DER encoder, for the examples. *)
Definition example_der (pub : crypto.PublicKey) : list byte * option string :=
  ([x30; x0d], None).

Definition example_name (cn : string) : pkix.Name :=
  {| pkix.Country := None;
     pkix.Organization := Some ["Example Org"];
     pkix.OrganizationalUnit := None;
     pkix.CommonName := cn |}.

(** A version 3 leaf with an RSA key; its names carry no country. *)
Definition leaf_example : x509.Certificate :=
  {| x509.Raw := [x30; x03; x01; x02; x03];
     x509.RawSubjectPublicKeyInfo := [x30; x0d];
     x509.RawSubject := [x30; x00];
     x509.SignatureAlgorithm := 4;
     x509.PublicKeyAlgorithm := 1;
     x509.PublicKey := crypto.RSA {| rsa.N := 3233; rsa.E := 65537 |};
     x509.Version := 3;
     x509.SerialNumber := 4096;
     x509.Issuer := example_name "Example CA";
     x509.Subject := example_name "www.example.com";
     x509.NotBefore := {| time.instant := 1000; time.location := "Local" |};
     x509.NotAfter := {| time.instant := 2000; time.location := "Local" |};
     x509.KeyUsage := 5;
     x509.ExtKeyUsage := Some [1; 2];
     x509.UnknownExtKeyUsage := None;
     x509.BasicConstraintsValid := true;
     x509.IsCA := false;
     x509.SubjectKeyId := [x01];
     x509.AuthorityKeyId := [x02];
     x509.DNSNames := Some ["www.example.com"];
     x509.PermittedDNSDomains := None;
     x509.CRLDistributionPoints := None;
     x509.PolicyIdentifiers := None |}.

Definition with_key (alg : Z) (pub : crypto.PublicKey) (ca : bool) (version : Z)
    (cert : x509.Certificate) : x509.Certificate :=
  {| x509.Raw := x509.Raw cert;
     x509.RawSubjectPublicKeyInfo := x509.RawSubjectPublicKeyInfo cert;
     x509.RawSubject := x509.RawSubject cert;
     x509.SignatureAlgorithm := x509.SignatureAlgorithm cert;
     x509.PublicKeyAlgorithm := alg;
     x509.PublicKey := pub;
     x509.Version := version;
     x509.SerialNumber := x509.SerialNumber cert;
     x509.Issuer := x509.Issuer cert;
     x509.Subject := x509.Subject cert;
     x509.NotBefore := x509.NotBefore cert;
     x509.NotAfter := x509.NotAfter cert;
     x509.KeyUsage := x509.KeyUsage cert;
     x509.ExtKeyUsage := x509.ExtKeyUsage cert;
     x509.UnknownExtKeyUsage := x509.UnknownExtKeyUsage cert;
     x509.BasicConstraintsValid := x509.BasicConstraintsValid cert;
     x509.IsCA := ca;
     x509.SubjectKeyId := x509.SubjectKeyId cert;
     x509.AuthorityKeyId := x509.AuthorityKeyId cert;
     x509.DNSNames := x509.DNSNames cert;
     x509.PermittedDNSDomains := x509.PermittedDNSDomains cert;
     x509.CRLDistributionPoints := x509.CRLDistributionPoints cert;
     x509.PolicyIdentifiers := x509.PolicyIdentifiers cert |}.

(** The same certificate as a version 3 CA. *)
Definition ca_example : x509.Certificate :=
  with_key 1 (x509.PublicKey leaf_example) true 3 leaf_example.

(** The same leaf with the version field one above version 3. *)
Definition v4_example : x509.Certificate :=
  with_key 1 (x509.PublicKey leaf_example) false 4 leaf_example.

(** The same leaf with a key of an algorithm the parser does not know. *)
Definition unknown_key_example : x509.Certificate :=
  with_key 0 crypto.Other false 3 leaf_example.

Definition example_verdict : ValidationInfo.t :=
  {| ValidationInfo.IsValid := true; ValidationInfo.ValidationError := "" |}.

Definition example_now : time.Time :=
  {| time.instant := 1500; time.location := "Local" |}.

(** [CertToStored] on an example certificate, as one scan calls it. *)
Definition stored_example (cert : x509.Certificate) : result Certificate.t :=
  CertToStored example_der cert "-- --" "www.example.com" "192.0.2.1"
    Mozilla_TS_name example_verdict example_now.

(** A stored certificate with the given names and validation map. *)
Definition stored_with (subject issuer : Subject.t)
    (info : gmap string ValidationInfo.t) : Certificate.t :=
  {| Certificate.ID := 0;
     Certificate.Serial := "";
     Certificate.ScanTarget := "";
     Certificate.IPs := None;
     Certificate.Version := 3;
     Certificate.SignatureAlgorithm := "";
     Certificate.Issuer := issuer;
     Certificate.Validity :=
       {| Validity.NotBefore := example_now; Validity.NotAfter := example_now |};
     Certificate.Subject := subject;
     Certificate.Key :=
       {| SubjectPublicKeyInfo.Alg := ""; SubjectPublicKeyInfo.Size := 0;
          SubjectPublicKeyInfo.Exponent := 0; SubjectPublicKeyInfo.X := "";
          SubjectPublicKeyInfo.Y := ""; SubjectPublicKeyInfo.P := "";
          SubjectPublicKeyInfo.Q := ""; SubjectPublicKeyInfo.G := "";
          SubjectPublicKeyInfo.Curve := "" |};
     Certificate.X509v3Extensions :=
       {| Extensions.AuthorityKeyId := ""; Extensions.SubjectKeyId := "";
          Extensions.KeyUsage := None; Extensions.ExtendedKeyUsage := None;
          Extensions.SubjectAlternativeName := None;
          Extensions.CRLDistributionPoints := None;
          Extensions.PolicyIdentifiers := None;
          Extensions.IsNameConstrained := false;
          Extensions.PermittedNames := None |};
     Certificate.X509v3BasicConstraints := "";
     Certificate.CA := false;
     Certificate.Analysis := None;
     Certificate.ParentSignature := None;
     Certificate.ValidationInfo := info;
     Certificate.FirstSeenTimestamp := example_now;
     Certificate.LastSeenTimestamp := example_now;
     Certificate.Hashes :=
       {| Hashes.MD5 := ""; Hashes.SHA1 := ""; Hashes.SHA256 := "";
          Hashes.SHA256SubjectSPKI := ""; Hashes.PKPSHA256 := "" |};
     Certificate.Raw := "";
     Certificate.Anomalies := "" |}.

Definition subject_example : Subject.t :=
  {| Subject.ID := 0;
     Subject.Country := Some ["US"; "DE"];
     Subject.Organisation := None;
     Subject.OrgUnit := Some ["Web"];
     Subject.CommonName := "www.example.com" |}.

(** The CA example with a BasicConstraints extension that is not valid. *)
Definition unbacked_ca_example : x509.Certificate :=
  {| x509.Raw := x509.Raw ca_example;
     x509.RawSubjectPublicKeyInfo := x509.RawSubjectPublicKeyInfo ca_example;
     x509.RawSubject := x509.RawSubject ca_example;
     x509.SignatureAlgorithm := x509.SignatureAlgorithm ca_example;
     x509.PublicKeyAlgorithm := x509.PublicKeyAlgorithm ca_example;
     x509.PublicKey := x509.PublicKey ca_example;
     x509.Version := 3;
     x509.SerialNumber := x509.SerialNumber ca_example;
     x509.Issuer := x509.Issuer ca_example;
     x509.Subject := x509.Subject ca_example;
     x509.NotBefore := x509.NotBefore ca_example;
     x509.NotAfter := x509.NotAfter ca_example;
     x509.KeyUsage := x509.KeyUsage ca_example;
     x509.ExtKeyUsage := x509.ExtKeyUsage ca_example;
     x509.UnknownExtKeyUsage := x509.UnknownExtKeyUsage ca_example;
     x509.BasicConstraintsValid := false;
     x509.IsCA := true;
     x509.SubjectKeyId := x509.SubjectKeyId ca_example;
     x509.AuthorityKeyId := x509.AuthorityKeyId ca_example;
     x509.DNSNames := x509.DNSNames ca_example;
     x509.PermittedDNSDomains := x509.PermittedDNSDomains ca_example;
     x509.CRLDistributionPoints := x509.CRLDistributionPoints ca_example;
     x509.PolicyIdentifiers := x509.PolicyIdentifiers ca_example |}.

(** A stand-in for the parser, for the examples: every DER body but the
    empty one parses as the example leaf. *)
Definition example_parser (der : list byte) : option x509.Certificate * option string :=
  match der with
  | [] => (None, Some "asn1: syntax error")
  | _ :: _ => (Some leaf_example, None)
  end.

(** ** Properties *)

(** *** The run-time model *)

Lemma array_index_in_range {A} (a : list A) (i : Z) :
  0 ≤ i < Z.of_nat (length a) → ∃ x, array_index a i = Ok x.
Proof.
  intros [Hlo Hhi]. unfold array_index.
  rewrite (proj2 (Z.leb_le _ _) Hlo), (proj2 (Z.ltb_lt _ _) Hhi). cbn [andb].
  destruct (a !! Z.to_nat i) as [x|] eqn:Hx; [eauto|].
  apply lookup_ge_None in Hx. lia.
Qed.

Lemma array_index_lookup {A} (a : list A) (i : Z) (x : A) :
  array_index a i = Ok x ↔ 0 ≤ i ∧ a !! Z.to_nat i = Some x.
Proof.
  unfold array_index. split.
  - destruct (0 <=? i) eqn:Hlo; [|discriminate].
    destruct (i <? Z.of_nat (length a)); [|discriminate]. cbn [andb].
    apply Z.leb_le in Hlo.
    destruct (a !! Z.to_nat i); [|discriminate]. by intros [= ->].
  - intros [Hlo Hx]. pose proof (lookup_lt_Some _ _ _ Hx) as Hlt.
    rewrite (proj2 (Z.leb_le _ _) Hlo).
    rewrite (proj2 (Z.ltb_lt i (Z.of_nat (length a)))) by lia.
    cbn [andb]. by rewrite Hx.
Qed.

Lemma append_make {A} (xs : list A) : append make xs = Some xs.
Proof. reflexivity. Qed.

Lemma append_is_Some {A} (s : slice A) (xs : list A) :
  is_Some s → is_Some (append s xs).
Proof. intros [l ->]. cbn. eauto. Qed.

Lemma if_append_is_Some {A} (b : bool) (s : slice A) (xs : list A) :
  is_Some s → is_Some (if b then append s xs else s).
Proof. destruct b; [apply append_is_Some | done]. Qed.

(** *** The helpers of [CertToStored] *)

Lemma getKeyUsages_is_Some (cert : x509.Certificate) : is_Some (getKeyUsages cert).
Proof.
  unfold getKeyUsages. repeat apply if_append_is_Some. by exists [].
Qed.

Lemma getPolicyIdentifiers_is_Some (cert : x509.Certificate) :
  is_Some (getPolicyIdentifiers cert).
Proof.
  unfold getPolicyIdentifiers.
  assert (Hs : is_Some (make : slice string)) by (by exists []).
  revert Hs. generalize (make : slice string).
  induction (elems (x509.PolicyIdentifiers cert)) as [|pi rest IH]; intros acc Hacc.
  - exact Hacc.
  - cbn [fold_left]. apply IH, append_is_Some, Hacc.
Qed.

(** The loop over the known usages keeps a non-nil slice non-nil, and runs
    to its end when every index is inside the table. *)
Lemma ExtKeyUsage_loop (ekus : list Z) (usage : slice string) :
  Forall (λ eku, 0 ≤ eku ≤ 11) ekus →
  ∃ usage',
    for_range ekus
      (λ usage eku, name ← array_index ExtKeyUsage eku; Ok (append usage [name]))
      usage = Ok usage'
    ∧ (is_Some usage → is_Some usage').
Proof.
  intros Hall. revert usage.
  induction Hall as [|eku rest Heku _ IH]; intros usage.
  - exists usage. by split.
  - destruct (array_index_in_range ExtKeyUsage eku) as [name Hname].
    { cbn [ExtKeyUsage length]. lia. }
    destruct (IH (append usage [name])) as (usage' & Hrun & Hsome).
    exists usage'. split.
    + cbn [for_range]. rewrite Hname. cbn [mbind result_bind]. exact Hrun.
    + intros Hu. by apply Hsome, append_is_Some.
Qed.

Lemma ExtKeyUsage_loop_is_Some (ekus : list Z) (usage usage' : slice string) :
  for_range ekus
    (λ usage eku, name ← array_index ExtKeyUsage eku; Ok (append usage [name]))
    usage = Ok usage' →
  is_Some usage → is_Some usage'.
Proof.
  revert usage. induction ekus as [|eku rest IH]; intros usage.
  - intros [= ->]. done.
  - cbn [for_range]. destruct (array_index ExtKeyUsage eku) as [name|]; [|discriminate].
    cbn [mbind result_bind]. intros Hrun Hu.
    apply (IH _ Hrun), append_is_Some, Hu.
Qed.

Lemma unknown_loop (oids : list asn1.ObjectIdentifier) (usage : slice string) :
  ∃ usage',
    for_range oids (λ usage unknownEku, Ok (append usage [asn1.String unknownEku])) usage
    = Ok usage'
    ∧ (is_Some usage → is_Some usage').
Proof.
  revert usage. induction oids as [|oid rest IH]; intros usage.
  - exists usage. by split.
  - destruct (IH (append usage [asn1.String oid])) as (usage' & Hrun & Hsome).
    exists usage'. split; [exact Hrun|].
    intros Hu. by apply Hsome, append_is_Some.
Qed.

Lemma getExtKeyUsages_total (cert : x509.Certificate) :
  Forall (λ eku, 0 ≤ eku ≤ 11) (elems (x509.ExtKeyUsage cert)) →
  ∃ usage, getExtKeyUsages cert = Ok usage.
Proof.
  intros Hall. unfold getExtKeyUsages.
  destruct (ExtKeyUsage_loop _ make Hall) as (u1 & -> & _).
  cbn [mbind result_bind].
  destruct (unknown_loop (elems (x509.UnknownExtKeyUsage cert)) u1) as (u2 & -> & _).
  cbn [mbind result_bind]. eauto.
Qed.

Lemma getExtKeyUsages_is_Some (cert : x509.Certificate) (usage : slice string) :
  getExtKeyUsages cert = Ok usage → is_Some usage.
Proof.
  unfold getExtKeyUsages.
  destruct (for_range (elems (x509.ExtKeyUsage cert)) _ make) as [u1|] eqn:H1;
    [|discriminate].
  cbn [mbind result_bind].
  destruct (unknown_loop (elems (x509.UnknownExtKeyUsage cert)) u1) as (u2 & -> & Hu2).
  cbn [mbind result_bind]. intros [= <-].
  apply Hu2, (ExtKeyUsage_loop_is_Some _ _ _ H1). by exists [].
Qed.

Lemma getCertExtensions_total (cert : x509.Certificate) :
  Forall (λ eku, 0 ≤ eku ≤ 11) (elems (x509.ExtKeyUsage cert)) →
  ∃ ext, getCertExtensions cert = Ok ext.
Proof.
  intros Hall. unfold getCertExtensions.
  destruct (getExtKeyUsages_total cert Hall) as [usage ->].
  cbn [mbind result_bind]. eauto.
Qed.

(** None of the six lists of the stored extensions is nil. *)
Lemma getCertExtensions_lists (cert : x509.Certificate) (ext : Extensions.t) :
  getCertExtensions cert = Ok ext →
  is_Some (Extensions.SubjectAlternativeName ext)
  ∧ is_Some (Extensions.CRLDistributionPoints ext)
  ∧ is_Some (Extensions.PermittedNames ext)
  ∧ is_Some (Extensions.KeyUsage ext)
  ∧ is_Some (Extensions.ExtendedKeyUsage ext)
  ∧ is_Some (Extensions.PolicyIdentifiers ext).
Proof.
  unfold getCertExtensions.
  destruct (getExtKeyUsages cert) as [usage|] eqn:Husage; [|discriminate].
  cbn [mbind result_bind]. apply getExtKeyUsages_is_Some in Husage.
  pose proof (getKeyUsages_is_Some cert) as Hku.
  pose proof (getPolicyIdentifiers_is_Some cert) as Hpi.
  rewrite !append_make.
  match goal with |- Ok (if ?c then _ else _) = _ → _ => destruct c end;
    intros [= <-];
    cbn [Extensions.set_IsNameConstrained Extensions.SubjectAlternativeName
         Extensions.CRLDistributionPoints Extensions.PermittedNames
         Extensions.KeyUsage Extensions.ExtendedKeyUsage Extensions.PolicyIdentifiers];
    repeat split; eauto.
Qed.

Lemma getPublicKeyInfo_total (cert : x509.Certificate) :
  0 ≤ x509.PublicKeyAlgorithm cert ≤ 3 →
  ∃ key err, getPublicKeyInfo cert = Ok (key, err).
Proof.
  intros Halg. unfold getPublicKeyInfo.
  destruct (array_index_in_range PublicKeyAlgorithm (x509.PublicKeyAlgorithm cert))
    as [alg ->].
  { cbn [PublicKeyAlgorithm length]. lia. }
  cbn [mbind result_bind].
  destruct (x509.PublicKey cert); cbn [big.MarshalText]; eauto.
Qed.

(** *** [CertToStored] *)

(** The cases of a successful [CertToStored]: the three table lookups
    succeed, then the version, [BasicConstraintsValid] and [IsCA] decide
    the branches. *)
Ltac stored_cases H :=
  lazymatch type of H with
  | CertToStored _ ?c _ _ _ _ _ _ = Ok _ =>
      unfold CertToStored in H;
      destruct (array_index SignatureAlgorithm (x509.SignatureAlgorithm c))
        as [sigAlg|] eqn:Hsig; [|discriminate H];
      destruct (getPublicKeyInfo c) as [[key err]|] eqn:Hkey; [|discriminate H];
      destruct (getCertExtensions c) as [ext|] eqn:Hext; [|discriminate H];
      destruct (x509.Version c <? 3) eqn:Hver;
      destruct (x509.BasicConstraintsValid c) eqn:Hbc;
      destruct (x509.IsCA c) eqn:Hca;
      cbn [mbind result_bind negb] in H;
      injection H as H; rewrite <- H; clear H;
      first [apply Z.ltb_lt in Hver | apply Z.ltb_ge in Hver]
  end.

Section StoredProperties.

Variable marshal : crypto.PublicKey → list byte * option string.

Variables (cert : x509.Certificate) (parentSignature domain ip TSName : string).
Variables (valInfo : ValidationInfo.t) (now : time.Time).

(** C3: the stored [ca] flag is true exactly when the version is below 3
    and the parser flagged [IsCA], or the version is at least 3, the
    BasicConstraints extension is valid and [IsCA] is set. *)
Theorem CertToStored_ca (stored : Certificate.t) :
  CertToStored marshal cert parentSignature domain ip TSName valInfo now = Ok stored →
  Certificate.CA stored = true ↔
    (x509.Version cert < 3 ∧ x509.IsCA cert = true)
    ∨ (3 ≤ x509.Version cert ∧ x509.BasicConstraintsValid cert = true
       ∧ x509.IsCA cert = true).
Proof.
  intros H. stored_cases H; cbn [Certificate.CA];
    (split;
     [ intros Hc; try discriminate Hc
     | intros [[? ?]|(? & ? & ?)]; first [reflexivity | discriminate | lia] ]);
    first [ left; split; [assumption | reflexivity]
          | right; repeat split; first [assumption | reflexivity] ].
Qed.

(** C4, as the code has it: the stored basic-constraints display string
    is "Critical" exactly when the version is at least 3 and the
    BasicConstraints extension is valid, and the empty string otherwise. *)
Theorem CertToStored_basicConstraints (stored : Certificate.t) :
  CertToStored marshal cert parentSignature domain ip TSName valInfo now = Ok stored →
  (Certificate.X509v3BasicConstraints stored = "Critical" ↔
     3 ≤ x509.Version cert ∧ x509.BasicConstraintsValid cert = true)
  ∧ (Certificate.X509v3BasicConstraints stored = "Critical"
     ∨ Certificate.X509v3BasicConstraints stored = "").
Proof.
  intros H. stored_cases H; cbn [Certificate.X509v3BasicConstraints];
    (split; [split|]);
    first [ intros Hc; discriminate Hc
          | intros [? ?]; first [reflexivity | discriminate | lia]
          | intros _; split; [assumption | reflexivity]
          | by left
          | by right ].
Qed.

(** C5: a certificate stored with [ca = true] has no scan target and an
    empty list of IPs. *)
Theorem CertToStored_ca_no_target (stored : Certificate.t) :
  CertToStored marshal cert parentSignature domain ip TSName valInfo now = Ok stored →
  Certificate.CA stored = true →
  Certificate.ScanTarget stored = "" ∧ Certificate.IPs stored = Some [].
Proof.
  intros H. stored_cases H;
    cbn [Certificate.CA Certificate.ScanTarget Certificate.IPs];
    intros Hc; first [discriminate Hc | by split].
Qed.

(** C1, as the code has it: a map built by [GetValidityMap] has exactly
    the five trust-store names as its keys; the map of a certificate
    returned by [CertToStored] has exactly one key, the store name the
    caller passed, with the verdict passed along. *)
Theorem validationInfo_keys :
  (∀ u mo mi ap an : bool,
     dom (GetValidityMap u mo mi ap an) = trust_stores
     ∧ size (GetValidityMap u mo mi ap an) = 5%nat)
  ∧ (∀ stored : Certificate.t,
       CertToStored marshal cert parentSignature domain ip TSName valInfo now = Ok stored →
       Certificate.ValidationInfo stored = {[ TSName := valInfo ]}
       ∧ dom (Certificate.ValidationInfo stored) = {[ TSName ]}
       ∧ size (Certificate.ValidationInfo stored) = 1%nat).
Proof.
  split.
  - intros u mo mi ap an. split.
    + unfold GetValidityMap, trust_stores.
      rewrite !dom_insert_L, dom_empty_L. set_solver.
    + vm_compute. reflexivity.
  - intros stored H.
    assert (Hinfo : Certificate.ValidationInfo stored = {[ TSName := valInfo ]}).
    { stored_cases H; cbn [Certificate.ValidationInfo]; apply insert_empty. }
    rewrite Hinfo. split; [reflexivity|]. split.
    + apply dom_singleton_L.
    + apply map_size_singleton.
Qed.

(** C6, as the code has it: in a certificate returned by [CertToStored]
    the lists the package builds itself are never nil: [ips],
    [parentSignature] (which holds the one signature passed in) and the six
    extension lists; the Country, Organisation and OrgUnit lists of subject
    and issuer are the parsed certificate's own slices, nil where the
    parser left them nil. *)
Theorem CertToStored_lists (stored : Certificate.t) :
  CertToStored marshal cert parentSignature domain ip TSName valInfo now = Ok stored →
  (is_Some (Certificate.IPs stored)
   ∧ Certificate.ParentSignature stored = Some [parentSignature]
   ∧ is_Some (Extensions.SubjectAlternativeName (Certificate.X509v3Extensions stored))
   ∧ is_Some (Extensions.CRLDistributionPoints (Certificate.X509v3Extensions stored))
   ∧ is_Some (Extensions.PermittedNames (Certificate.X509v3Extensions stored))
   ∧ is_Some (Extensions.KeyUsage (Certificate.X509v3Extensions stored))
   ∧ is_Some (Extensions.ExtendedKeyUsage (Certificate.X509v3Extensions stored))
   ∧ is_Some (Extensions.PolicyIdentifiers (Certificate.X509v3Extensions stored)))
  ∧ (Subject.Country (Certificate.Subject stored) = pkix.Country (x509.Subject cert)
     ∧ Subject.Organisation (Certificate.Subject stored)
       = pkix.Organization (x509.Subject cert)
     ∧ Subject.OrgUnit (Certificate.Subject stored)
       = pkix.OrganizationalUnit (x509.Subject cert)
     ∧ Subject.Country (Certificate.Issuer stored) = pkix.Country (x509.Issuer cert)
     ∧ Subject.Organisation (Certificate.Issuer stored)
       = pkix.Organization (x509.Issuer cert)
     ∧ Subject.OrgUnit (Certificate.Issuer stored)
       = pkix.OrganizationalUnit (x509.Issuer cert)).
Proof.
  intros H. stored_cases H;
    destruct (getCertExtensions_lists _ _ Hext) as (? & ? & ? & ? & ? & ?);
    cbn [Certificate.IPs Certificate.ParentSignature Certificate.X509v3Extensions
         Certificate.Subject Certificate.Issuer
         Subject.Country Subject.Organisation Subject.OrgUnit];
    rewrite ?append_make; repeat split; eauto.
Qed.

(** C10: the three tables have 13, 12 and 4 entries; when the signature
    algorithm is in 0..12, every extended key usage in 0..11 and the public
    key algorithm in 0..3, every table lookup is in bounds and
    [CertToStored] returns a certificate. *)
Theorem CertToStored_total :
  0 ≤ x509.SignatureAlgorithm cert ≤ 12 →
  Forall (λ eku, 0 ≤ eku ≤ 11) (elems (x509.ExtKeyUsage cert)) →
  0 ≤ x509.PublicKeyAlgorithm cert ≤ 3 →
  (length SignatureAlgorithm = 13%nat ∧ length ExtKeyUsage = 12%nat
   ∧ length PublicKeyAlgorithm = 4%nat)
  ∧ (∃ name, array_index SignatureAlgorithm (x509.SignatureAlgorithm cert) = Ok name)
  ∧ Forall (λ eku, ∃ name, array_index ExtKeyUsage eku = Ok name)
      (elems (x509.ExtKeyUsage cert))
  ∧ (∃ name, array_index PublicKeyAlgorithm (x509.PublicKeyAlgorithm cert) = Ok name)
  ∧ ∃ stored,
      CertToStored marshal cert parentSignature domain ip TSName valInfo now = Ok stored.
Proof.
  intros Hsig Heku Hpk.
  assert (Hs : ∃ name,
    array_index SignatureAlgorithm (x509.SignatureAlgorithm cert) = Ok name).
  { apply array_index_in_range. cbn [SignatureAlgorithm length]. lia. }
  assert (Hp : ∃ name,
    array_index PublicKeyAlgorithm (x509.PublicKeyAlgorithm cert) = Ok name).
  { apply array_index_in_range. cbn [PublicKeyAlgorithm length]. lia. }
  split; [by repeat split|]. split; [exact Hs|]. split.
  { eapply Forall_impl; [exact Heku|]. intros eku Hin. cbv beta in Hin |- *.
    apply array_index_in_range. cbn [ExtKeyUsage length]. lia. }
  split; [exact Hp|].
  destruct Hs as [sigAlg Hs].
  destruct (getPublicKeyInfo_total cert Hpk) as (key & err & Hkey).
  destruct (getCertExtensions_total cert Heku) as [ext Hext].
  unfold CertToStored. rewrite Hs, Hkey, Hext. cbn [mbind result_bind].
  destruct (x509.Version cert <? 3), (x509.BasicConstraintsValid cert),
    (x509.IsCA cert); eexists; reflexivity.
Qed.

(** C2, as the code has it: for a certificate whose parsed public key is
    none of the RSA, DSA and ECDSA keys nothing is written to the hash, and
    the fingerprint is the base64 text of the SHA-256 of the empty
    message. *)
Theorem PKPSHA256Hash_unknown_key :
  x509.PublicKey cert = crypto.Other →
  PKPSHA256Hash marshal cert = base64.EncodeToString (sha256.Sum256 [])
  ∧ PKPSHA256Hash marshal cert = "47DEQpj8HBSa+/TImW+5JCeuQeRkm5NMpJWZG3hSuFU=".
Proof.
  intros Hkey. unfold PKPSHA256Hash. rewrite Hkey. split; vm_compute; reflexivity.
Qed.

End StoredProperties.

(** *** Strings *)

Lemma string_app_assoc (a b c : string) : (a +:+ b) +:+ c = a +:+ (b +:+ c).
Proof. induction a as [|x a IH]; [reflexivity|]. exact (f_equal (String x) IH). Qed.

Lemma Join_cons (x y : string) (rest : list string) (sep : string) :
  strings.Join (x :: y :: rest) sep = x +:+ sep +:+ strings.Join (y :: rest) sep.
Proof. reflexivity. Qed.

Lemma Join_app (xs ys : list string) (sep : string) :
  xs ≠ [] → ys ≠ [] →
  strings.Join (xs ++ ys) sep = strings.Join xs sep +:+ sep +:+ strings.Join ys sep.
Proof.
  intros Hxs Hys. induction xs as [|x [|x' xs] IH]; [done| |].
  - destruct ys as [|y ys]; [done|]. reflexivity.
  - change ((x :: x' :: xs) ++ ys) with (x :: (x' :: xs) ++ ys).
    cbn [app]. rewrite !Join_cons.
    change (x' :: xs ++ ys) with ((x' :: xs) ++ ys). rewrite IH by done.
    by rewrite !string_app_assoc.
Qed.

(** A prefix before the joined elements and after every separator is a
    prefix on every element. *)
Lemma Join_prefix (prefix sep : string) (xs : list string) :
  xs ≠ [] →
  prefix +:+ strings.Join xs (sep +:+ prefix)
  = strings.Join ((λ x, prefix +:+ x) <$> xs) sep.
Proof.
  intros Hxs. induction xs as [|x [|x' xs] IH]; [done|reflexivity|].
  rewrite Join_cons.
  change (strings.Join ((λ x, prefix +:+ x) <$> x :: x' :: xs) sep)
    with ((prefix +:+ x) +:+ sep +:+ strings.Join ((λ x, prefix +:+ x) <$> x' :: xs) sep).
  rewrite <- IH by done. by rewrite !string_app_assoc.
Qed.

(** Replacing a group by the components of its list changes neither the
    joined text nor whether there is any component. *)
Lemma Join_group (prefix : string) (xs ys ys' : list string) :
  strings.Join ys ", " = strings.Join ys' ", " →
  (ys = [] ↔ ys' = []) →
  strings.Join (group prefix xs ++ ys) ", "
  = strings.Join (((λ x, prefix +:+ x) <$> xs) ++ ys') ", "
  ∧ (group prefix xs ++ ys = [] ↔ ((λ x, prefix +:+ x) <$> xs) ++ ys' = []).
Proof.
  intros Hjoin Hnil. destruct xs as [|x xs]; [by split|].
  split; [|by split].
  unfold group. rewrite Join_prefix by done.
  destruct ys as [|y ys], ys' as [|y' ys'].
  - by rewrite !app_nil_r.
  - discriminate (proj1 Hnil eq_refl).
  - discriminate (proj2 Hnil eq_refl).
  - rewrite (Join_app (_ <$> _)) by done.
    rewrite <- Hjoin. reflexivity.
Qed.

Lemma Join_separated (comps : list string) (last : string) :
  strings.Join (comps ++ [last]) ", " = separated comps last.
Proof.
  induction comps as [|c comps IH]; [reflexivity|].
  cbn [separated]. rewrite <- IH.
  destruct comps; reflexivity.
Qed.

(** *** [Subject.String] *)

Lemma String_groups (s : Subject.t) :
  Subject.String s
  = strings.Join
      (group "C=" (elems (Subject.Country s))
       ++ group "O=" (elems (Subject.Organisation s))
       ++ group "OU=" (elems (Subject.OrgUnit s))
       ++ (if String.eqb (Subject.CommonName s) ""
           then [] else ["CN=" +:+ Subject.CommonName s])) ", ".
Proof.
  unfold Subject.String, len.
  destruct (elems (Subject.Country s)), (elems (Subject.Organisation s)),
    (elems (Subject.OrgUnit s)), (Subject.CommonName s); reflexivity.
Qed.

(** C7: [String] renders the present components in the order C, O, OU, CN
    joined by ", ", one component per list element; a subject with nothing
    in it renders as the empty string; and the text ends with its last
    component: a separator follows every component but the last. *)
Theorem Subject_String_spec (s : Subject.t) :
  Subject.String s = strings.Join (components s) ", "
  ∧ (elems (Subject.Country s) = [] ∧ elems (Subject.Organisation s) = []
     ∧ elems (Subject.OrgUnit s) = [] ∧ Subject.CommonName s = "" →
     Subject.String s = "")
  ∧ (∀ comps last, components s = comps ++ [last] →
     Subject.String s = separated comps last).
Proof.
  assert (Heq : Subject.String s = strings.Join (components s) ", ").
  { rewrite String_groups. unfold components.
    apply Join_group; apply Join_group; apply Join_group; done. }
  split; [exact Heq|]. split.
  - intros (HC & HO & HOU & HCN). rewrite Heq. unfold components.
    by rewrite HC, HO, HOU, HCN.
  - intros comps last Hcomps. rewrite Heq, Hcomps. apply Join_separated.
Qed.

(** *** [IsSelfSigned] *)

Lemma same_elements_eq (xs ys : list string) : same_elements xs ys ↔ xs = ys.
Proof.
  split; [|by intros ->].
  intros [Hlen Hat]. apply list_eq. intros i.
  destruct (decide (i < length xs)%nat) as [Hi|Hi]; [by apply Hat|].
  rewrite !lookup_ge_None_2; [done| |]; lia.
Qed.

(** On lists of equal length the comparison loop never indexes out of
    range, and returns early exactly when the lists differ. *)
Lemma differs_from_spec (pre xs ys : list string) :
  length xs = length ys →
  Certificate.differs_from (Z.of_nat (length pre)) xs (pre ++ ys)
  = Ok (bool_decide (xs ≠ ys)).
Proof.
  revert pre ys. induction xs as [|x xs IH]; intros pre [|y ys] Hlen;
    try discriminate Hlen.
  - reflexivity.
  - cbn [Certificate.differs_from].
    assert (Hy : array_index (pre ++ y :: ys) (Z.of_nat (length pre)) = Ok y).
    { apply array_index_lookup. split; [lia|].
      rewrite Nat2Z.id. apply list_lookup_middle. reflexivity. }
    rewrite Hy. cbn [mbind result_bind].
    destruct (String.eqb_spec x y) as [->|Hxy]; cbn [negb].
    + replace (Z.of_nat (length pre) + 1) with (Z.of_nat (length (pre ++ [y])))
        by (rewrite length_app; cbn [length]; lia).
      replace (pre ++ y :: ys) with ((pre ++ [y]) ++ ys) by (by rewrite <- app_assoc).
      rewrite IH by (by injection Hlen).
      f_equal. apply bool_decide_ext. split; intros Hne Heq; apply Hne; congruence.
    + f_equal. symmetry. apply bool_decide_eq_true. congruence.
Qed.

Lemma differs_from_0 (xs ys : list string) :
  length xs = length ys →
  Certificate.differs_from 0 xs ys = Ok (bool_decide (xs ≠ ys)).
Proof. exact (differs_from_spec [] xs ys). Qed.

(** C8: [IsSelfSigned] returns, and returns true exactly when subject and
    issuer have the same CommonName and their Country, Organisation and
    OrgUnit lists have equal length and equal elements at every index. *)
Theorem IsSelfSigned_spec (c : Certificate.t) :
  ∃ b : bool,
    Certificate.IsSelfSigned c = Ok b
    ∧ (b = true ↔
         Subject.CommonName (Certificate.Subject c)
         = Subject.CommonName (Certificate.Issuer c)
         ∧ same_elements (elems (Subject.Country (Certificate.Subject c)))
             (elems (Subject.Country (Certificate.Issuer c)))
         ∧ same_elements (elems (Subject.Organisation (Certificate.Subject c)))
             (elems (Subject.Organisation (Certificate.Issuer c)))
         ∧ same_elements (elems (Subject.OrgUnit (Certificate.Subject c)))
             (elems (Subject.OrgUnit (Certificate.Issuer c)))).
Proof.
  unfold Certificate.IsSelfSigned, len. setoid_rewrite same_elements_eq.
  destruct (String.eqb_spec (Subject.CommonName (Certificate.Subject c))
              (Subject.CommonName (Certificate.Issuer c))) as [Hcn|Hcn];
    cbn [negb orb].
  2: { exists false. split; [done|]. split; [done|]. by intros (? & _). }
  destruct (Z.eqb_spec
              (Z.of_nat (length (elems (Subject.Organisation (Certificate.Subject c)))))
              (Z.of_nat (length (elems (Subject.Organisation (Certificate.Issuer c))))))
    as [HO|HO]; cbn [negb orb].
  2: { exists false. split; [done|]. split; [done|].
       intros (_ & _ & Heq & _). by rewrite Heq in HO. }
  destruct (Z.eqb_spec
              (Z.of_nat (length (elems (Subject.OrgUnit (Certificate.Subject c)))))
              (Z.of_nat (length (elems (Subject.OrgUnit (Certificate.Issuer c))))))
    as [HOU|HOU]; cbn [negb orb].
  2: { exists false. split; [done|]. split; [done|].
       intros (_ & _ & _ & Heq). by rewrite Heq in HOU. }
  destruct (Z.eqb_spec
              (Z.of_nat (length (elems (Subject.Country (Certificate.Subject c)))))
              (Z.of_nat (length (elems (Subject.Country (Certificate.Issuer c))))))
    as [HC|HC]; cbn [negb orb].
  2: { exists false. split; [done|]. split; [done|].
       intros (_ & Heq & _). by rewrite Heq in HC. }
  rewrite !differs_from_0 by lia. cbn [mbind result_bind].
  repeat case_bool_decide; cbn [mbind result_bind];
    first [ exists true; split; [done|]; split; [intros _|done];
            repeat split; first [done | by apply dec_stable]
          | exists false; split; [done|]; split; [done|];
            intros (_ & ? & ? & ?); done ].
Qed.

(** *** [GetBooleanValidity] *)

(** C9: for each of the five trust stores [GetBooleanValidity] returns the
    [isValid] of the store's entry when the map has one, and [false] when
    the store's key is absent. *)
Theorem GetBooleanValidity_spec (c : Certificate.t) :
  Certificate.GetBooleanValidity c
  = (valid_in (Certificate.ValidationInfo c) Ubuntu_TS_name,
     valid_in (Certificate.ValidationInfo c) Mozilla_TS_name,
     valid_in (Certificate.ValidationInfo c) Microsoft_TS_name,
     valid_in (Certificate.ValidationInfo c) Apple_TS_name,
     valid_in (Certificate.ValidationInfo c) Android_TS_name).
Proof.
  unfold Certificate.GetBooleanValidity, lookup2, valid_in.
  destruct (Certificate.ValidationInfo c !! Ubuntu_TS_name),
    (Certificate.ValidationInfo c !! Mozilla_TS_name),
    (Certificate.ValidationInfo c !! Microsoft_TS_name),
    (Certificate.ValidationInfo c !! Apple_TS_name),
    (Certificate.ValidationInfo c !! Android_TS_name); reflexivity.
Qed.

(** *** The validity map and the booleans of the database *)

Lemma GetValidityMap_lookup (u mo mi ap an : bool) (k : string) :
  GetValidityMap u mo mi ap an !! k
  = if decide (k = Android_TS_name)
    then Some {| ValidationInfo.IsValid := an; ValidationInfo.ValidationError := "" |}
    else if decide (k = Apple_TS_name)
    then Some {| ValidationInfo.IsValid := ap; ValidationInfo.ValidationError := "" |}
    else if decide (k = Microsoft_TS_name)
    then Some {| ValidationInfo.IsValid := mi; ValidationInfo.ValidationError := "" |}
    else if decide (k = Mozilla_TS_name)
    then Some {| ValidationInfo.IsValid := mo; ValidationInfo.ValidationError := "" |}
    else if decide (k = Ubuntu_TS_name)
    then Some {| ValidationInfo.IsValid := u; ValidationInfo.ValidationError := "" |}
    else None.
Proof.
  unfold GetValidityMap.
  repeat
    match goal with
    | |- <[?name := _]> _ !! k = _ =>
        rewrite lookup_insert; destruct (decide (name = k)) as [<-|?];
        [ rewrite decide_True by reflexivity; reflexivity
        | rewrite (decide_False (P := k = name)) by congruence ]
    end.
  apply lookup_empty.
Qed.

Lemma GetValidityMap_dom (u mo mi ap an : bool) :
  dom (GetValidityMap u mo mi ap an) = trust_stores.
Proof.
  unfold GetValidityMap, trust_stores.
  rewrite !dom_insert_L, dom_empty_L. set_solver.
Qed.

(** X1: the database booleans read from a map built by [GetValidityMap] are
    the booleans the map was built from. *)
Theorem GetBooleanValidity_GetValidityMap (c : Certificate.t) (u mo mi ap an : bool) :
  Certificate.ValidationInfo c = GetValidityMap u mo mi ap an →
  Certificate.GetBooleanValidity c = (u, mo, mi, ap, an).
Proof.
  intros Hmap. unfold Certificate.GetBooleanValidity, lookup2.
  rewrite Hmap, !GetValidityMap_lookup. reflexivity.
Qed.

(** X2: rebuilding the map from the booleans read from it gives the map
    back exactly when it has the five trust-store names as its keys and
    no entry carries an error text; the error texts are what the booleans
    lose. *)
Theorem GetValidityMap_GetBooleanValidity (c : Certificate.t) :
  (let '(u, mo, mi, ap, an) := Certificate.GetBooleanValidity c in
   GetValidityMap u mo mi ap an) = Certificate.ValidationInfo c
  ↔ dom (Certificate.ValidationInfo c) = trust_stores
    ∧ map_Forall (λ _ v, ValidationInfo.ValidationError v = "")
        (Certificate.ValidationInfo c).
Proof.
  destruct (Certificate.GetBooleanValidity c) as [[[[u mo] mi] ap] an] eqn:Hbools.
  split.
  - intros <-. split; [apply GetValidityMap_dom|].
    intros k v. rewrite GetValidityMap_lookup.
    repeat case_decide; intros [= <-]; reflexivity.
  - intros [Hdom Herr].
    unfold Certificate.GetBooleanValidity, lookup2 in Hbools.
    apply map_eq. intros k. rewrite GetValidityMap_lookup.
    assert (Hin : ∀ name, name ∈ trust_stores →
              ∃ v, Certificate.ValidationInfo c !! name = Some v
                   ∧ ValidationInfo.ValidationError v = "").
    { intros name Hname. rewrite <- Hdom in Hname.
      apply elem_of_dom in Hname as [v Hv]. exists v. split; [done|].
      exact (Herr _ _ Hv). }
    destruct (Hin Ubuntu_TS_name) as ([vu eu] & Hu & Heu); [set_solver|].
    destruct (Hin Mozilla_TS_name) as ([vmo emo] & Hmo & Hemo); [set_solver|].
    destruct (Hin Microsoft_TS_name) as ([vmi emi] & Hmi & Hemi); [set_solver|].
    destruct (Hin Apple_TS_name) as ([vap eap] & Hap & Heap); [set_solver|].
    destruct (Hin Android_TS_name) as ([van ean] & Han & Hean); [set_solver|].
    rewrite Hu, Hmo, Hmi, Hap, Han in Hbools. cbn in *.
    injection Hbools as <- <- <- <- <-. subst.
    repeat (case_decide; [subst k; symmetry; assumption|]).
    symmetry. apply not_elem_of_dom. rewrite Hdom. unfold trust_stores.
    rewrite !elem_of_union, !elem_of_singleton. tauto.
Qed.

(** X3: the certificate [CertToStored] returns reads as trusted by the
    store the verdict was passed for, when that verdict is valid, and as
    untrusted by every other store; with a store name outside the five all
    five booleans are false. *)
Theorem CertToStored_GetBooleanValidity
    (marshal : crypto.PublicKey → list byte * option string)
    (cert : x509.Certificate) (parentSignature domain ip TSName : string)
    (valInfo : ValidationInfo.t) (now : time.Time) (stored : Certificate.t) :
  CertToStored marshal cert parentSignature domain ip TSName valInfo now = Ok stored →
  Certificate.GetBooleanValidity stored
  = (bool_decide (TSName = Ubuntu_TS_name) && ValidationInfo.IsValid valInfo,
     bool_decide (TSName = Mozilla_TS_name) && ValidationInfo.IsValid valInfo,
     bool_decide (TSName = Microsoft_TS_name) && ValidationInfo.IsValid valInfo,
     bool_decide (TSName = Apple_TS_name) && ValidationInfo.IsValid valInfo,
     bool_decide (TSName = Android_TS_name) && ValidationInfo.IsValid valInfo).
Proof.
  intros H.
  assert (Hinfo : Certificate.ValidationInfo stored = {[ TSName := valInfo ]}).
  { stored_cases H; cbn [Certificate.ValidationInfo]; apply insert_empty. }
  unfold Certificate.GetBooleanValidity, lookup2. rewrite Hinfo.
  rewrite !lookup_singleton.
  repeat
    match goal with
    | |- context [decide (TSName = ?name)] =>
        destruct (decide (TSName = name)) as [Heq|Hne];
        [ rewrite (bool_decide_eq_true_2 _ Heq); clear Heq
        | rewrite (bool_decide_eq_false_2 _ Hne); clear Hne ]
    end;
    cbn [negb andb]; reflexivity.
Qed.

(** *** When [CertToStored] returns *)







(** *** The extensions *)

Lemma land_bit (x i : Z) :
  0 ≤ i → (Z.land x (2 ^ i) =? 0) = negb (Z.testbit x i).
Proof.
  intros Hi. destruct (Z.testbit x i) eqn:Hb; cbn [negb].
  - apply Z.eqb_neq. intros H0.
    assert (Hbit : Z.testbit (Z.land x (2 ^ i)) i = true).
    { by rewrite Z.land_spec, Hb, Z.pow2_bits_true. }
    rewrite H0, Z.bits_0 in Hbit. discriminate Hbit.
  - apply Z.eqb_eq, Z.bits_inj_0. intros n. rewrite Z.land_spec.
    destruct (Z.eq_dec i n) as [<-|Hne]; [by rewrite Hb|].
    destruct (Z.le_gt_cases 0 n) as [Hn|Hn].
    + rewrite (Z.pow2_bits_false i n) by done. apply andb_false_r.
    + rewrite (Z.testbit_neg_r x n) by done. reflexivity.
Qed.

Lemma if_append (b : bool) (l : list string) (name : string) :
  (if b then append (Some l) [name] else Some l)
  = Some (l ++ if b then [name] else []).
Proof. destruct b; [reflexivity|]. by rewrite app_nil_r. Qed.

Lemma getKeyUsages_set_bits (cert : x509.Certificate) :
  getKeyUsages cert = Some (set_bits 0 key_usage_names (x509.KeyUsage cert)).
Proof.
  unfold getKeyUsages.
  generalize (x509.KeyUsage cert). intros ku.
  assert (Hbit : ∀ i mask, 0 ≤ i → mask = 2 ^ i →
            negb (Z.land ku mask =? 0) = Z.testbit ku i).
  { intros i mask Hi ->. rewrite land_bit by done. apply negb_involutive. }
  rewrite (Hbit 0 x509.KeyUsageDigitalSignature), (Hbit 1 x509.KeyUsageContentCommitment),
    (Hbit 2 x509.KeyUsageKeyEncipherment), (Hbit 3 x509.KeyUsageDataEncipherment),
    (Hbit 4 x509.KeyUsageKeyAgreement), (Hbit 5 x509.KeyUsageCertSign),
    (Hbit 6 x509.KeyUsageCRLSign), (Hbit 7 x509.KeyUsageEncipherOnly),
    (Hbit 8 x509.KeyUsageDecipherOnly) by (lia || reflexivity).
  change (set_bits 0 key_usage_names ku)
    with ((if Z.testbit ku 0 then ["Digital Signature"] else [])
          ++ (if Z.testbit ku 1 then ["Non Repudiation"] else [])
          ++ (if Z.testbit ku 2 then ["Key Encipherment"] else [])
          ++ (if Z.testbit ku 3 then ["Data Encipherment"] else [])
          ++ (if Z.testbit ku 4 then ["Key Agreement"] else [])
          ++ (if Z.testbit ku 5 then ["Certificate Sign"] else [])
          ++ (if Z.testbit ku 6 then ["CRL Sign"] else [])
          ++ (if Z.testbit ku 7 then ["Encipher Only"] else [])
          ++ (if Z.testbit ku 8 then ["Decipher Only"] else []) ++ []).
  unfold make. rewrite !if_append. f_equal.
  rewrite <- !app_assoc, app_nil_r. reflexivity.
Qed.

Lemma set_bits_elem (names : list string) (bitmap i : Z) (j : nat) (name : string) :
  NoDup names → names !! j = Some name →
  name ∈ set_bits i names bitmap ↔ Z.testbit bitmap (i + Z.of_nat j) = true.
Proof.
  revert i j. induction names as [|n rest IH]; intros i j Hnd Hj; [done|].
  apply NoDup_cons in Hnd as [Hn Hnd]. cbn [set_bits].
  rewrite elem_of_app. destruct j as [|j]; cbn in Hj.
  - injection Hj as ->. replace (i + Z.of_nat 0) with i by lia.
    split.
    + intros [Hin|Hin].
      * destruct (Z.testbit bitmap i); [done|]. by apply elem_of_nil in Hin.
      * exfalso. apply Hn. clear -Hin. revert i Hin.
        induction rest as [|r rest IHr]; intros i Hin; [by apply elem_of_nil in Hin|].
        cbn [set_bits] in Hin. apply elem_of_app in Hin as [Hin|Hin].
        -- destruct (Z.testbit bitmap (i + 1)); [|by apply elem_of_nil in Hin].
           apply list_elem_of_singleton in Hin as ->. apply list_elem_of_here.
        -- apply list_elem_of_further. exact (IHr _ Hin).
    + intros ->. left. apply list_elem_of_here.
  - replace (i + Z.of_nat (S j)) with (i + 1 + Z.of_nat j) by lia.
    rewrite <- (IH (i + 1) j Hnd Hj). split; [|by right].
    intros [Hin|Hin]; [|done]. exfalso.
    destruct (Z.testbit bitmap i); [|by apply elem_of_nil in Hin].
    apply list_elem_of_singleton in Hin as ->.
    apply Hn. by eapply list_elem_of_lookup_2.
Qed.

Lemma set_bits_sublist (names : list string) (bitmap i : Z) :
  sublist (set_bits i names bitmap) names.
Proof.
  revert i. induction names as [|n rest IH]; intros i; [constructor|].
  cbn [set_bits]. destruct (Z.testbit bitmap i); cbn [app].
  - apply sublist_skip, IH.
  - apply sublist_cons, IH.
Qed.

(** X5: a key-usage name is in the list [getKeyUsages] returns exactly
    when its bit (bit 0 for the first of the nine names) is set in the
    bitmap; the names come in bit order, each at most once, and bits above
    the ninth add nothing. *)
Theorem getKeyUsages_bits (cert : x509.Certificate) :
  (∀ (i : nat) (name : string),
     key_usage_names !! i = Some name →
     name ∈ elems (getKeyUsages cert)
     ↔ Z.testbit (x509.KeyUsage cert) (Z.of_nat i) = true)
  ∧ sublist (elems (getKeyUsages cert)) key_usage_names.
Proof.
  rewrite getKeyUsages_set_bits. cbn [elems]. split.
  - intros i name Hi. apply (set_bits_elem key_usage_names _ 0 i name); [|exact Hi].
    refine (@bool_decide_unpack _ (NoDup_dec _) _). vm_compute. exact I.
  - apply set_bits_sublist.
Qed.


Lemma ExtKeyUsage_loop_elems (ekus : list Z) (acc : list string) (usage' : slice string) :
  for_range ekus
    (λ usage eku, name ← array_index ExtKeyUsage eku; Ok (append usage [name]))
    (Some acc) = Ok usage' →
  ∃ names,
    Forall2 (λ eku name, 0 ≤ eku ∧ ExtKeyUsage !! Z.to_nat eku = Some name) ekus names
    ∧ usage' = Some (acc ++ names).
Proof.
  revert acc. induction ekus as [|eku rest IH]; intros acc.
  - intros [= <-]. exists []. split; [constructor|]. by rewrite app_nil_r.
  - cbn [for_range].
    destruct (array_index ExtKeyUsage eku) as [name|] eqn:Hname; [|discriminate].
    cbn [mbind result_bind append]. intros Hrun.
    destruct (IH _ Hrun) as (names & Hall & ->).
    exists (name :: names). split.
    + constructor; [|exact Hall]. by apply array_index_lookup.
    + by rewrite <- app_assoc.
Qed.

Lemma unknown_loop_elems (oids : list asn1.ObjectIdentifier) (acc : list string) :
  for_range oids (λ usage unknownEku, Ok (append usage [asn1.String unknownEku]))
    (Some acc)
  = Ok (Some (acc ++ (asn1.String <$> oids))).
Proof.
  revert acc. induction oids as [|oid rest IH]; intros acc.
  - cbn. by rewrite app_nil_r.
  - cbn [for_range mbind result_bind append]. rewrite IH.
    by rewrite <- app_assoc.
Qed.

(** X6: when [getExtKeyUsages] returns, its list holds the table name of
    every known usage, in the order of the certificate, followed by the
    dotted text of every unknown usage; it is never nil. *)
Theorem getExtKeyUsages_elems (cert : x509.Certificate) (usage : slice string) :
  getExtKeyUsages cert = Ok usage →
  ∃ names,
    Forall2 (λ eku name, 0 ≤ eku ∧ ExtKeyUsage !! Z.to_nat eku = Some name)
      (elems (x509.ExtKeyUsage cert)) names
    ∧ usage = Some (names ++ (asn1.String <$> elems (x509.UnknownExtKeyUsage cert))).
Proof.
  unfold getExtKeyUsages.
  destruct (for_range (elems (x509.ExtKeyUsage cert)) _ make) as [u1|] eqn:H1;
    [|discriminate].
  cbn [mbind result_bind]. unfold make in H1.
  destruct (ExtKeyUsage_loop_elems _ _ _ H1) as (names & Hall & ->).
  rewrite unknown_loop_elems. cbn [mbind result_bind app]. intros [= <-].
  by exists names.
Qed.

Lemma policy_fold (pis : list asn1.ObjectIdentifier) (acc : list string) :
  fold_left (λ identifiers pi, append identifiers [asn1.String pi]) pis (Some acc)
  = Some (acc ++ (asn1.String <$> pis)).
Proof.
  revert acc. induction pis as [|pi rest IH]; intros acc; cbn [fold_left].
  - by rewrite app_nil_r.
  - change (append (Some acc) [asn1.String pi]) with (Some (acc ++ [asn1.String pi])).
    rewrite IH, <- app_assoc. reflexivity.
Qed.

Lemma getPolicyIdentifiers_elems (cert : x509.Certificate) :
  getPolicyIdentifiers cert = Some (asn1.String <$> elems (x509.PolicyIdentifiers cert)).
Proof. exact (policy_fold _ []). Qed.

(** What a successful [getCertExtensions] returns. *)
Lemma getCertExtensions_inv (cert : x509.Certificate) (ext : Extensions.t) :
  getCertExtensions cert = Ok ext →
  ∃ usage,
    getExtKeyUsages cert = Ok usage
    ∧ ext =
      {| Extensions.AuthorityKeyId := base64.EncodeToString (x509.AuthorityKeyId cert);
         Extensions.SubjectKeyId := base64.EncodeToString (x509.SubjectKeyId cert);
         Extensions.KeyUsage := getKeyUsages cert;
         Extensions.ExtendedKeyUsage := usage;
         Extensions.SubjectAlternativeName := Some (elems (x509.DNSNames cert));
         Extensions.CRLDistributionPoints := Some (elems (x509.CRLDistributionPoints cert));
         Extensions.PolicyIdentifiers := getPolicyIdentifiers cert;
         Extensions.IsNameConstrained :=
           bool_decide (elems (x509.PermittedDNSDomains cert) ≠ []);
         Extensions.PermittedNames := Some (elems (x509.PermittedDNSDomains cert)) |}.
Proof.
  unfold getCertExtensions.
  destruct (getExtKeyUsages cert) as [usage|]; [|discriminate].
  cbn [mbind result_bind]. rewrite !append_make.
  cbn [Extensions.PermittedNames]. unfold len. cbn [elems].
  intros Hext. exists usage. split; [reflexivity|].
  destruct (elems (x509.PermittedDNSDomains cert)) as [|d ds];
    cbn in Hext; by injection Hext as <-.
Qed.

(** X7: [isNameConstrained] of the stored extensions is true exactly when
    [permittedNames] has an element, which is when the parsed certificate
    has a permitted DNS domain. *)
Theorem CertToStored_IsNameConstrained
    (marshal : crypto.PublicKey → list byte * option string)
    (cert : x509.Certificate) (parentSignature domain ip TSName : string)
    (valInfo : ValidationInfo.t) (now : time.Time) (stored : Certificate.t) :
  CertToStored marshal cert parentSignature domain ip TSName valInfo now = Ok stored →
  (Extensions.IsNameConstrained (Certificate.X509v3Extensions stored) = true
   ↔ elems (Extensions.PermittedNames (Certificate.X509v3Extensions stored)) ≠ [])
  ∧ (Extensions.IsNameConstrained (Certificate.X509v3Extensions stored) = true
     ↔ elems (x509.PermittedDNSDomains cert) ≠ []).
Proof.
  intros H. stored_cases H; cbn [Certificate.X509v3Extensions];
    destruct (getCertExtensions_inv _ _ Hext) as (usage & _ & ->);
    cbn [Extensions.IsNameConstrained Extensions.PermittedNames elems];
    split; apply bool_decide_eq_true.
Qed.

(** X8: the stored extension lists keep the parsed elements in their
    order: the DNS names, the CRL distribution points and the permitted
    domains as they are (a nil list of the parser becomes an empty list),
    the policy identifiers as their dotted texts, and the authority and
    subject key identifiers in base64. *)
Theorem CertToStored_extension_lists
    (marshal : crypto.PublicKey → list byte * option string)
    (cert : x509.Certificate) (parentSignature domain ip TSName : string)
    (valInfo : ValidationInfo.t) (now : time.Time) (stored : Certificate.t) :
  CertToStored marshal cert parentSignature domain ip TSName valInfo now = Ok stored →
  let ext := Certificate.X509v3Extensions stored in
  Extensions.SubjectAlternativeName ext = Some (elems (x509.DNSNames cert))
  ∧ Extensions.CRLDistributionPoints ext = Some (elems (x509.CRLDistributionPoints cert))
  ∧ Extensions.PermittedNames ext = Some (elems (x509.PermittedDNSDomains cert))
  ∧ Extensions.PolicyIdentifiers ext
    = Some (asn1.String <$> elems (x509.PolicyIdentifiers cert))
  ∧ Extensions.AuthorityKeyId ext = base64.EncodeToString (x509.AuthorityKeyId cert)
  ∧ Extensions.SubjectKeyId ext = base64.EncodeToString (x509.SubjectKeyId cert).
Proof.
  intros H. stored_cases H; cbn [Certificate.X509v3Extensions];
    destruct (getCertExtensions_inv _ _ Hext) as (usage & _ & ->);
    cbn [Extensions.SubjectAlternativeName Extensions.CRLDistributionPoints
         Extensions.PermittedNames Extensions.PolicyIdentifiers
         Extensions.AuthorityKeyId Extensions.SubjectKeyId];
    rewrite getPolicyIdentifiers_elems; by repeat split.
Qed.


(** *** The fingerprints *)

Lemma length_put_be (n : nat) (v : Z) : length (binary.put_be n v) = n.
Proof.
  revert v. induction n as [|n IH]; intros v; [reflexivity|].
  cbn [binary.put_be]. rewrite length_app, IH. cbn [length]. lia.
Qed.

Lemma length_put_le (n : nat) (v : Z) : length (binary.put_le n v) = n.
Proof. unfold binary.put_le. by rewrite length_rev, length_put_be. Qed.

Lemma length_words (put : nat → Z → list byte) (k : nat) (ws : list Z) :
  (∀ v, length (put k v) = k) →
  length (flat_map (put k) ws) = (k * length ws)%nat.
Proof.
  intros Hput. induction ws as [|w ws IH]; cbn [flat_map length]; [lia|].
  rewrite length_app, Hput, IH. lia.
Qed.

(** A block keeps the number of words of the state, whatever its rounds. *)
Lemma length_block (round : list Z → Z * Z → list Z) (kw : list (Z * Z)) (h : list Z) :
  (∀ st x, length (round st x) = length st) →
  length (zip_with bits.add32 h (fold_left round kw h)) = length h.
Proof.
  intros Hround. rewrite length_zip_with.
  assert (Hfold : ∀ st, length (fold_left round kw st) = length st).
  { induction kw as [|x kw IH]; intros st; [reflexivity|].
    cbn [fold_left]. by rewrite IH, Hround. }
  rewrite Hfold. lia.
Qed.

Lemma length_blocks (block : list Z → list byte → list Z) (ps : list (list byte))
    (h : list Z) :
  (∀ st p, length (block st p) = length st) →
  length (fold_left block ps h) = length h.
Proof.
  intros Hblock. revert h. induction ps as [|p ps IH]; intros h; [reflexivity|].
  cbn [fold_left]. by rewrite IH, Hblock.
Qed.

Lemma length_Sum256 (data : list byte) : length (sha256.Sum256 data) = 32%nat.
Proof.
  unfold sha256.Sum256.
  rewrite (length_words binary.put_be 4) by (intros; apply length_put_be).
  rewrite length_blocks; [reflexivity|].
  intros st p. apply length_block. intros h x.
  destruct h as [|a [|b [|c [|d [|e [|f [|g [|h' [|? ?]]]]]]]]]; reflexivity.
Qed.

Lemma length_sha1 (data : list byte) : length (sha1.Sum data) = 20%nat.
Proof.
  unfold sha1.Sum.
  rewrite (length_words binary.put_be 4) by (intros; apply length_put_be).
  rewrite length_blocks; [reflexivity|].
  intros st p. apply length_block. intros h x.
  destruct h as [|a [|b [|c [|d [|e [|? ?]]]]]]; reflexivity.
Qed.

Lemma length_md5 (data : list byte) : length (md5.Sum data) = 16%nat.
Proof.
  unfold md5.Sum.
  rewrite (length_words binary.put_le 4) by (intros; apply length_put_le).
  rewrite length_blocks; [reflexivity|].
  intros st p. apply length_block. intros h x.
  destruct h as [|a [|b [|c [|d [|? ?]]]]]; reflexivity.
Qed.

Lemma length_hex (tbl : list ascii) (src : list byte) :
  String.length (hex.encode tbl src) = (2 * length src)%nat.
Proof.
  induction src as [|b src IH]; [reflexivity|].
  cbn [hex.encode String.length length]. rewrite IH. lia.
Qed.

Lemma udigits_byte (b : byte) :
  hex.digit fmt.udigits (Z.shiftr (Z_of_byte b) 4) ∈ fmt.udigits
  ∧ hex.digit fmt.udigits (Z.land (Z_of_byte b) 15) ∈ fmt.udigits.
Proof.
  destruct b; split;
    refine (@bool_decide_unpack _ (list_elem_of_dec _ _) _); vm_compute; exact I.
Qed.

Lemma SprintfX_upper_hex (b : list byte) : upper_hex (fmt.SprintfX b).
Proof.
  unfold upper_hex, fmt.SprintfX.
  induction b as [|x b IH]; [constructor|].
  cbn [hex.encode list_ascii_of_string].
  destruct (udigits_byte x) as [Hhi Hlo].
  constructor; [exact Hhi|]. constructor; [exact Hlo|]. exact IH.
Qed.

(** X9: the MD5, SHA1 and SHA256 fingerprints of any bytes, and the
    subject-and-key fingerprint of any certificate, are texts of 32, 40, 64
    and 64 upper-case hexadecimal digits. *)
Theorem fingerprints_format (data : list byte) (cert : x509.Certificate) :
  (String.length (MD5Hash data) = 32%nat ∧ upper_hex (MD5Hash data))
  ∧ (String.length (SHA1Hash data) = 40%nat ∧ upper_hex (SHA1Hash data))
  ∧ (String.length (SHA256Hash data) = 64%nat ∧ upper_hex (SHA256Hash data))
  ∧ (String.length (SHA256SubjectSPKI cert) = 64%nat
     ∧ upper_hex (SHA256SubjectSPKI cert)).
Proof.
  unfold MD5Hash, SHA1Hash, SHA256Hash, SHA256SubjectSPKI, sha256.Sum.
  cbn [app]. unfold fmt.SprintfX at 1 3 5 7.
  rewrite !length_hex, length_md5, length_sha1, !length_Sum256.
  repeat split; try reflexivity; apply SprintfX_upper_hex.
Qed.

Lemma base64_32 (src : list byte) :
  length src = 32%nat →
  String.length (base64.EncodeToString src) = 44%nat
  ∧ String.get 43 (base64.EncodeToString src) = Some "="%char.
Proof.
  intros Hlen.
  do 32 (destruct src as [|? src]; [discriminate Hlen|]).
  destruct src; [|discriminate Hlen]. split; reflexivity.
Qed.

(** X10: the PKPSHA256 fingerprint of every certificate, with any key and
    any encoder, is a text of 44 characters ending in [=]; it is never
    empty. *)
Theorem PKPSHA256Hash_length
    (marshal : crypto.PublicKey → list byte * option string) (cert : x509.Certificate) :
  String.length (PKPSHA256Hash marshal cert) = 44%nat
  ∧ String.get 43 (PKPSHA256Hash marshal cert) = Some "="%char
  ∧ PKPSHA256Hash marshal cert ≠ "".
Proof.
  assert (H : String.length (PKPSHA256Hash marshal cert) = 44%nat
              ∧ String.get 43 (PKPSHA256Hash marshal cert) = Some "="%char).
  { unfold PKPSHA256Hash, sha256.Sum. apply base64_32. cbn [app]. apply length_Sum256. }
  destruct H as [Hlen Hget]. repeat split; [exact Hlen|exact Hget|].
  intros Hempty. rewrite Hempty in Hlen. discriminate Hlen.
Qed.


(** *** The serial number *)

Lemma upper_digit (b : byte) :
  strings.upper (hex.digit hex.hextable (Z.shiftr (Z_of_byte b) 4))
  = hex.digit fmt.udigits (Z.shiftr (Z_of_byte b) 4)
  ∧ strings.upper (hex.digit hex.hextable (Z.land (Z_of_byte b) 15))
    = hex.digit fmt.udigits (Z.land (Z_of_byte b) 15).
Proof. destruct b; split; vm_compute; reflexivity. Qed.

(** Lower-case hexadecimal turned to upper case is the format of the
    fingerprints. *)
Lemma ToUpper_hex (src : list byte) :
  strings.ToUpper (hex.EncodeToString src) = fmt.SprintfX src.
Proof.
  unfold hex.EncodeToString, fmt.SprintfX.
  induction src as [|b src IH]; [reflexivity|].
  cbn [hex.encode strings.ToUpper]. destruct (upper_digit b) as [-> ->].
  by rewrite IH.
Qed.

Lemma BitLen_pos (x : Z) : x ≠ 0 → 1 ≤ big.BitLen x.
Proof.
  intros Hx. unfold big.BitLen.
  destruct (Z.eqb_spec (Z.abs x) 0) as [H0|_]; [lia|].
  pose proof (Z.log2_nonneg (Z.abs x)). lia.
Qed.

Lemma Bytes_nil (x : Z) : big.Bytes x = [] ↔ x = 0.
Proof.
  split.
  - intros Hnil. destruct (Z.eq_dec x 0) as [|Hx]; [done|].
    apply (f_equal length) in Hnil. unfold big.Bytes in Hnil.
    rewrite length_put_be in Hnil. cbn [length] in Hnil.
    pose proof (BitLen_pos x Hx) as Hlen.
    assert (1 ≤ (big.BitLen x + 7) / 8) by (apply Z.div_le_lower_bound; lia).
    lia.
  - intros ->. reflexivity.
Qed.

Lemma Bytes_abs (x : Z) : big.Bytes x = big.Bytes (Z.abs x).
Proof. unfold big.Bytes, big.BitLen. by rewrite Z.abs_idemp. Qed.

(** X11: the stored serial is the absolute value of the serial number in
    bytes, written as upper-case hexadecimal digits, two per byte: the sign
    is dropped, and the serial number 0 is stored as the empty text. *)
Theorem CertToStored_Serial
    (marshal : crypto.PublicKey → list byte * option string)
    (cert : x509.Certificate) (parentSignature domain ip TSName : string)
    (valInfo : ValidationInfo.t) (now : time.Time) (stored : Certificate.t) :
  CertToStored marshal cert parentSignature domain ip TSName valInfo now = Ok stored →
  Certificate.Serial stored = fmt.SprintfX (big.Bytes (Z.abs (x509.SerialNumber cert)))
  ∧ upper_hex (Certificate.Serial stored)
  ∧ String.length (Certificate.Serial stored)
    = (2 * length (big.Bytes (x509.SerialNumber cert)))%nat
  ∧ (Certificate.Serial stored = "" ↔ x509.SerialNumber cert = 0).
Proof.
  intros H.
  assert (Hserial : Certificate.Serial stored
                    = fmt.SprintfX (big.Bytes (x509.SerialNumber cert))).
  { stored_cases H; cbn [Certificate.Serial]; apply ToUpper_hex. }
  rewrite Hserial. split; [by rewrite <- Bytes_abs|].
  split; [apply SprintfX_upper_hex|]. split; [apply length_hex|].
  rewrite <- Bytes_nil. unfold fmt.SprintfX.
  destruct (big.Bytes (x509.SerialNumber cert)); [done|].
  cbn [hex.encode]. split; discriminate.
Qed.

(** *** Self-signed certificates *)

Lemma IsSelfSigned_decide (c : Certificate.t) :
  Certificate.IsSelfSigned c
  = Ok (bool_decide
          (Subject.CommonName (Certificate.Subject c)
           = Subject.CommonName (Certificate.Issuer c)
           ∧ elems (Subject.Country (Certificate.Subject c))
             = elems (Subject.Country (Certificate.Issuer c))
           ∧ elems (Subject.Organisation (Certificate.Subject c))
             = elems (Subject.Organisation (Certificate.Issuer c))
           ∧ elems (Subject.OrgUnit (Certificate.Subject c))
             = elems (Subject.OrgUnit (Certificate.Issuer c)))).
Proof.
  unfold Certificate.IsSelfSigned, len.
  destruct (String.eqb_spec (Subject.CommonName (Certificate.Subject c))
              (Subject.CommonName (Certificate.Issuer c))) as [Hcn|Hcn];
    cbn [negb orb].
  2: { rewrite bool_decide_eq_false_2; [done|]. by intros (? & _). }
  destruct (Z.eqb_spec
              (Z.of_nat (length (elems (Subject.Organisation (Certificate.Subject c)))))
              (Z.of_nat (length (elems (Subject.Organisation (Certificate.Issuer c))))))
    as [HO|HO]; cbn [negb orb].
  2: { rewrite bool_decide_eq_false_2; [done|].
       intros (_ & _ & Heq & _). by rewrite Heq in HO. }
  destruct (Z.eqb_spec
              (Z.of_nat (length (elems (Subject.OrgUnit (Certificate.Subject c)))))
              (Z.of_nat (length (elems (Subject.OrgUnit (Certificate.Issuer c))))))
    as [HOU|HOU]; cbn [negb orb].
  2: { rewrite bool_decide_eq_false_2; [done|].
       intros (_ & _ & _ & Heq). by rewrite Heq in HOU. }
  destruct (Z.eqb_spec
              (Z.of_nat (length (elems (Subject.Country (Certificate.Subject c)))))
              (Z.of_nat (length (elems (Subject.Country (Certificate.Issuer c))))))
    as [HC|HC]; cbn [negb orb].
  2: { rewrite bool_decide_eq_false_2; [done|].
       intros (_ & Heq & _). by rewrite Heq in HC. }
  rewrite !differs_from_0 by lia. cbn [mbind result_bind].
  repeat case_bool_decide; cbn [mbind result_bind]; try reflexivity;
    first [ by destruct_and? | exfalso; tauto
          | exfalso; match goal with H : ¬ _ |- _ => apply H end;
            repeat split; first [done | by apply dec_stable] ].
Qed.

(** X12: the certificate [CertToStored] returns is self-signed exactly
    when the subject and the issuer of the parsed certificate have the same
    CommonName and the same elements in their Country, Organization and
    OrganizationalUnit lists; [IsSelfSigned] never panics on it. *)
Theorem CertToStored_IsSelfSigned
    (marshal : crypto.PublicKey → list byte * option string)
    (cert : x509.Certificate) (parentSignature domain ip TSName : string)
    (valInfo : ValidationInfo.t) (now : time.Time) (stored : Certificate.t) :
  CertToStored marshal cert parentSignature domain ip TSName valInfo now = Ok stored →
  Certificate.IsSelfSigned stored
  = Ok (bool_decide
          (pkix.CommonName (x509.Subject cert) = pkix.CommonName (x509.Issuer cert)
           ∧ elems (pkix.Country (x509.Subject cert))
             = elems (pkix.Country (x509.Issuer cert))
           ∧ elems (pkix.Organization (x509.Subject cert))
             = elems (pkix.Organization (x509.Issuer cert))
           ∧ elems (pkix.OrganizationalUnit (x509.Subject cert))
             = elems (pkix.OrganizationalUnit (x509.Issuer cert)))).
Proof.
  intros H. rewrite IsSelfSigned_decide.
  stored_cases H;
    cbn [Certificate.Subject Certificate.Issuer Subject.CommonName Subject.Country
         Subject.Organisation Subject.OrgUnit]; reflexivity.
Qed.

(** *** A CA flag the extension does not back *)

(** X14: a certificate of version 3 or later that the parser flags as a
    CA while its BasicConstraints extension is not valid is stored with
    [ca = false] and an empty display string, and still gets no scan target
    and no IP: scan target and IPs follow the parser's flag, not the stored
    one. *)
Theorem CertToStored_unbacked_ca
    (marshal : crypto.PublicKey → list byte * option string)
    (cert : x509.Certificate) (parentSignature domain ip TSName : string)
    (valInfo : ValidationInfo.t) (now : time.Time) (stored : Certificate.t) :
  CertToStored marshal cert parentSignature domain ip TSName valInfo now = Ok stored →
  3 ≤ x509.Version cert →
  x509.BasicConstraintsValid cert = false →
  x509.IsCA cert = true →
  Certificate.CA stored = false
  ∧ Certificate.X509v3BasicConstraints stored = ""
  ∧ Certificate.ScanTarget stored = ""
  ∧ Certificate.IPs stored = Some [].
Proof.
  intros H Hv Hbcv Hisca. stored_cases H; try discriminate; try lia;
    by repeat split.
Qed.


(** *** Base64 and [ToX509] *)

Lemma land_63_range (n : Z) : 0 ≤ Z.land n 63 < 64.
Proof.
  change 63 with (Z.ones 6). rewrite Z.land_ones by lia.
  apply Z.mod_pos_bound. lia.
Qed.

Lemma alphabet_nth (k : nat) :
  (k < 64)%nat →
  base64.value (nth k base64.encodeStd "="%char) = Some (Z.of_nat k)
  ∧ (Ascii.eqb (nth k base64.encodeStd "="%char) "010"
     || Ascii.eqb (nth k base64.encodeStd "="%char) "013") = false.
Proof.
  intros Hk.
  do 64 (destruct k as [|k]; [split; vm_compute; reflexivity|]). lia.
Qed.

Lemma value_char (n : Z) : base64.value (base64.char n) = Some (Z.land n 63).
Proof.
  pose proof (land_63_range n) as Hn. unfold base64.char.
  destruct (alphabet_nth (Z.to_nat (Z.land n 63))) as [-> _]; [lia|].
  f_equal. lia.
Qed.

Lemma strip_char (n : Z) (s : string) :
  base64.strip (String (base64.char n) s) = base64.char n :: base64.strip s.
Proof.
  pose proof (land_63_range n) as Hn. cbn [base64.strip]. unfold base64.char.
  destruct (alphabet_nth (Z.to_nat (Z.land n 63))) as [_ ->]; [lia|]. reflexivity.
Qed.

Lemma byte_of_Z_of_byte (b : byte) : byte_of_Z (Z_of_byte b) = b.
Proof.
  unfold byte_of_Z, Z_of_byte.
  pose proof (Byte.to_N_bounded b) as Hb.
  rewrite Z.mod_small by lia. rewrite N2Z.id, Byte.of_to_N. reflexivity.
Qed.

Lemma byte_of_Z_land (x : Z) : byte_of_Z x = byte_of_Z (Z.land x (Z.ones 8)).
Proof.
  unfold byte_of_Z. rewrite Z.land_ones by lia.
  change (2 ^ 8) with 256. by rewrite Z.mod_mod by lia.
Qed.

Lemma Z_of_byte_land (b : byte) : Z_of_byte b = Z.land (Z_of_byte b) (Z.ones 8).
Proof.
  rewrite Z.land_ones by lia. symmetry. apply Z.mod_small.
  unfold Z_of_byte. pose proof (Byte.to_N_bounded b). change (2 ^ 8) with 256. lia.
Qed.

(** Four 6-bit values put together again are the low 24 bits. *)
Lemma regroup (v : Z) :
  Z.lor (Z.lor (Z.lor (Z.shiftl (Z.land (Z.shiftr v 18) (Z.ones 6)) 18)
                      (Z.shiftl (Z.land (Z.shiftr v 12) (Z.ones 6)) 12))
               (Z.shiftl (Z.land (Z.shiftr v 6) (Z.ones 6)) 6))
        (Z.land v (Z.ones 6))
  = Z.land v (Z.ones 24).
Proof. Z.bitblast. Qed.

Lemma regroup_pad1 (v : Z) :
  Z.lor (Z.lor (Z.shiftl (Z.land (Z.shiftr v 18) (Z.ones 6)) 18)
               (Z.shiftl (Z.land (Z.shiftr v 12) (Z.ones 6)) 12))
        (Z.shiftl (Z.land (Z.shiftr v 6) (Z.ones 6)) 6)
  = Z.land (Z.shiftl (Z.shiftr v 6) 6) (Z.ones 24).
Proof. Z.bitblast. Qed.

Lemma regroup_pad2 (v : Z) :
  Z.lor (Z.shiftl (Z.land (Z.shiftr v 18) (Z.ones 6)) 18)
        (Z.shiftl (Z.land (Z.shiftr v 12) (Z.ones 6)) 12)
  = Z.land (Z.shiftl (Z.shiftr v 12) 12) (Z.ones 24).
Proof. Z.bitblast. Qed.

(** The three bytes packed into four 6-bit values and unpacked again. *)
Lemma group3 (x0 x1 x2 : Z) :
  let b0 := Z.land x0 (Z.ones 8) in
  let b1 := Z.land x1 (Z.ones 8) in
  let b2 := Z.land x2 (Z.ones 8) in
  let v := Z.lor (Z.lor (Z.shiftl b0 16) (Z.shiftl b1 8)) b2 in
  let val := Z.lor (Z.lor (Z.lor (Z.shiftl (Z.land (Z.shiftr v 18) (Z.ones 6)) 18)
                                 (Z.shiftl (Z.land (Z.shiftr v 12) (Z.ones 6)) 12))
                          (Z.shiftl (Z.land (Z.shiftr v 6) (Z.ones 6)) 6))
                   (Z.land v (Z.ones 6)) in
  Z.land (Z.shiftr val 16) (Z.ones 8) = b0
  ∧ Z.land (Z.shiftr val 8) (Z.ones 8) = b1
  ∧ Z.land val (Z.ones 8) = b2.
Proof. cbv zeta. rewrite regroup. repeat split; Z.bitblast. Qed.

Lemma group2 (x0 x1 : Z) :
  let b0 := Z.land x0 (Z.ones 8) in
  let b1 := Z.land x1 (Z.ones 8) in
  let v := Z.lor (Z.shiftl b0 16) (Z.shiftl b1 8) in
  let val := Z.lor (Z.lor (Z.shiftl (Z.land (Z.shiftr v 18) (Z.ones 6)) 18)
                          (Z.shiftl (Z.land (Z.shiftr v 12) (Z.ones 6)) 12))
                   (Z.shiftl (Z.land (Z.shiftr v 6) (Z.ones 6)) 6) in
  Z.land (Z.shiftr val 16) (Z.ones 8) = b0
  ∧ Z.land (Z.shiftr val 8) (Z.ones 8) = b1.
Proof. cbv zeta. rewrite regroup_pad1. repeat split; Z.bitblast. Qed.

Lemma group1 (x0 : Z) :
  let b0 := Z.land x0 (Z.ones 8) in
  let v := Z.shiftl b0 16 in
  let val := Z.lor (Z.shiftl (Z.land (Z.shiftr v 18) (Z.ones 6)) 18)
                   (Z.shiftl (Z.land (Z.shiftr v 12) (Z.ones 6)) 12) in
  Z.land (Z.shiftr val 16) (Z.ones 8) = b0.
Proof. cbv zeta. rewrite regroup_pad2. Z.bitblast. Qed.

Lemma quanta_EncodeToString (n : nat) (src : list byte) :
  (length src ≤ n)%nat →
  base64.quanta (base64.strip (base64.EncodeToString src)) = Some src.
Proof.
  revert src. induction n as [|n IH]; intros src Hlen.
  { destruct src; [reflexivity|cbn in Hlen; lia]. }
  destruct src as [|b0 [|b1 [|b2 rest]]].
  - reflexivity.
  - cbn [base64.EncodeToString]. rewrite !strip_char.
    change (base64.strip "==") with ["="%char; "="%char].
    cbn [base64.quanta]. rewrite !value_char.
    change (base64.value "=") with (@None Z).
    cbn [Ascii.eqb Bool.eqb andb take base64.bytes_of].
    do 2 f_equal. rewrite byte_of_Z_land.
    rewrite (Z_of_byte_land b0). change 63 with (Z.ones 6).
    rewrite (group1 (Z_of_byte b0)). rewrite <- Z_of_byte_land.
    apply byte_of_Z_of_byte.
  - cbn [base64.EncodeToString]. rewrite !strip_char.
    change (base64.strip "=") with ["="%char].
    cbn [base64.quanta]. rewrite !value_char.
    change (base64.value "=") with (@None Z).
    cbn [Ascii.eqb Bool.eqb andb take base64.bytes_of].
    rewrite (byte_of_Z_land (Z.shiftr _ 16)), (byte_of_Z_land (Z.shiftr _ 8)).
    rewrite (Z_of_byte_land b0), (Z_of_byte_land b1). change 63 with (Z.ones 6).
    destruct (group2 (Z_of_byte b0) (Z_of_byte b1)) as [-> ->].
    rewrite <- !Z_of_byte_land, !byte_of_Z_of_byte. reflexivity.
  - cbn [base64.EncodeToString]. rewrite !strip_char.
    cbn [base64.quanta]. rewrite !value_char.
    rewrite IH by (cbn [length] in Hlen; lia).
    cbn [base64.bytes_of app].
    rewrite (byte_of_Z_land (Z.shiftr _ 16)), (byte_of_Z_land (Z.shiftr _ 8)),
      (byte_of_Z_land (Z.lor _ _)).
    rewrite (Z_of_byte_land b0), (Z_of_byte_land b1), (Z_of_byte_land b2).
    change 63 with (Z.ones 6).
    destruct (group3 (Z_of_byte b0) (Z_of_byte b1) (Z_of_byte b2)) as (-> & -> & ->).
    rewrite <- !Z_of_byte_land, !byte_of_Z_of_byte. reflexivity.
Qed.

(** Decoding what was encoded gives the bytes back, without an error. *)
Lemma DecodeString_EncodeToString (src : list byte) :
  base64.DecodeString (base64.EncodeToString src) = (src, None).
Proof.
  unfold base64.DecodeString.
  by rewrite (quanta_EncodeToString (length src) src).
Qed.

(** X13: [ToX509] of a certificate [CertToStored] returned decodes the
    stored raw text without an error and gives what the parser gives on the
    DER body of the certificate it was stored from. *)
Theorem ToX509_CertToStored
    (ParseCertificate : list byte → option x509.Certificate * option string)
    (marshal : crypto.PublicKey → list byte * option string)
    (cert : x509.Certificate) (parentSignature domain ip TSName : string)
    (valInfo : ValidationInfo.t) (now : time.Time) (stored : Certificate.t) :
  CertToStored marshal cert parentSignature domain ip TSName valInfo now = Ok stored →
  base64.DecodeString (Certificate.Raw stored) = (x509.Raw cert, None)
  ∧ ToX509 ParseCertificate stored = ParseCertificate (x509.Raw cert).
Proof.
  intros H.
  assert (Hraw : Certificate.Raw stored = base64.EncodeToString (x509.Raw cert)).
  { stored_cases H; reflexivity. }
  unfold ToX509. rewrite Hraw, DecodeString_EncodeToString. by split.
Qed.

(** *** The public key *)

(** X15: [getPublicKeyInfo] never returns an error: the decimal text of a
    number always exists, so the four error returns of the DSA case are
    never taken.  The algorithm name comes from the algorithm number alone;
    for a key of none of the three known types every other field keeps its
    zero value. *)
Theorem getPublicKeyInfo_no_error (cert : x509.Certificate)
    (key : SubjectPublicKeyInfo.t) (err : option string) :
  getPublicKeyInfo cert = Ok (key, err) →
  err = None
  ∧ array_index PublicKeyAlgorithm (x509.PublicKeyAlgorithm cert)
    = Ok (SubjectPublicKeyInfo.Alg key)
  ∧ (x509.PublicKey cert = crypto.Other →
     SubjectPublicKeyInfo.Size key = 0 ∧ SubjectPublicKeyInfo.Exponent key = 0
     ∧ SubjectPublicKeyInfo.X key = "" ∧ SubjectPublicKeyInfo.Y key = ""
     ∧ SubjectPublicKeyInfo.P key = "" ∧ SubjectPublicKeyInfo.Q key = ""
     ∧ SubjectPublicKeyInfo.G key = "" ∧ SubjectPublicKeyInfo.Curve key = "").
Proof.
  unfold getPublicKeyInfo.
  destruct (array_index PublicKeyAlgorithm (x509.PublicKeyAlgorithm cert))
    as [alg|]; [|discriminate].
  cbn [mbind result_bind].
  destruct (x509.PublicKey cert) as [pub|pub|pub|]; cbn [big.MarshalText];
    intros [= <- <-]; (split; [reflexivity|]); (split; [reflexivity|]);
    first [discriminate | intros _; by repeat split].
Qed.

(** *** The times *)

(** X16: the first-seen and last-seen timestamps of the certificate
    [CertToStored] returns are the same time, the instant of the call; the
    validity bounds are the instants of the parsed certificate; all four
    are in UTC, whatever the location of the times they come from. *)
Theorem CertToStored_times
    (marshal : crypto.PublicKey → list byte * option string)
    (cert : x509.Certificate) (parentSignature domain ip TSName : string)
    (valInfo : ValidationInfo.t) (now : time.Time) (stored : Certificate.t) :
  CertToStored marshal cert parentSignature domain ip TSName valInfo now = Ok stored →
  Certificate.FirstSeenTimestamp stored = Certificate.LastSeenTimestamp stored
  ∧ time.instant (Certificate.FirstSeenTimestamp stored) = time.instant now
  ∧ time.instant (Validity.NotBefore (Certificate.Validity stored))
    = time.instant (x509.NotBefore cert)
  ∧ time.instant (Validity.NotAfter (Certificate.Validity stored))
    = time.instant (x509.NotAfter cert)
  ∧ Forall (λ t, time.location t = "UTC")
      [ Certificate.FirstSeenTimestamp stored; Certificate.LastSeenTimestamp stored;
        Validity.NotBefore (Certificate.Validity stored);
        Validity.NotAfter (Certificate.Validity stored) ].
Proof.
  intros H. stored_cases H;
    cbn [Certificate.FirstSeenTimestamp Certificate.LastSeenTimestamp
         Certificate.Validity Validity.NotBefore Validity.NotAfter];
    repeat split; repeat constructor.
Qed.

(** *** The library model on known values *)

Example sha256_empty :
  hex.EncodeToString (sha256.Sum256 [])
  = "e3b0c44298fc1c149afbf4c8996fb92427ae41e4649b934ca495991b7852b855".
Proof. vm_compute. reflexivity. Qed.

Example sha256_abc :
  hex.EncodeToString (sha256.Sum256 (list_byte_of_string "abc"))
  = "ba7816bf8f01cfea414140de5dae2223b00361a396177a9cb410ff61f20015ad".
Proof. vm_compute. reflexivity. Qed.

Example sha1_abc :
  hex.EncodeToString (sha1.Sum (list_byte_of_string "abc"))
  = "a9993e364706816aba3e25717850c26c9cd0d89d".
Proof. vm_compute. reflexivity. Qed.

Example md5_abc :
  hex.EncodeToString (md5.Sum (list_byte_of_string "abc"))
  = "900150983cd24fb0d6963f7d28e17f72".
Proof. vm_compute. reflexivity. Qed.

Example base64_foobar :
  base64.EncodeToString (list_byte_of_string "fooba") = "Zm9vYmE="
  ∧ base64.EncodeToString (list_byte_of_string "foobar") = "Zm9vYmFy".
Proof. split; vm_compute; reflexivity. Qed.

Example Subject_String_example :
  Subject.String subject_example = "C=US, C=DE, OU=Web, CN=www.example.com".
Proof. vm_compute. reflexivity. Qed.

(** A nil list and an empty list compare equal. *)
Example IsSelfSigned_nil_empty :
  Certificate.IsSelfSigned
    (stored_with subject_example
       {| Subject.ID := 7;
          Subject.Country := Some ["US"; "DE"];
          Subject.Organisation := Some [];
          Subject.OrgUnit := Some ["Web"];
          Subject.CommonName := "www.example.com" |} ∅)
  = Ok true.
Proof. vm_compute. reflexivity. Qed.

(** An index outside a table panics: a signature algorithm numbered 13. *)
Example CertToStored_out_of_range :
  CertToStored example_der
    {| x509.Raw := x509.Raw leaf_example;
       x509.RawSubjectPublicKeyInfo := x509.RawSubjectPublicKeyInfo leaf_example;
       x509.RawSubject := x509.RawSubject leaf_example;
       x509.SignatureAlgorithm := 13;
       x509.PublicKeyAlgorithm := 1;
       x509.PublicKey := x509.PublicKey leaf_example;
       x509.Version := 3;
       x509.SerialNumber := 1;
       x509.Issuer := x509.Issuer leaf_example;
       x509.Subject := x509.Subject leaf_example;
       x509.NotBefore := x509.NotBefore leaf_example;
       x509.NotAfter := x509.NotAfter leaf_example;
       x509.KeyUsage := 0;
       x509.ExtKeyUsage := None;
       x509.UnknownExtKeyUsage := None;
       x509.BasicConstraintsValid := false;
       x509.IsCA := false;
       x509.SubjectKeyId := [];
       x509.AuthorityKeyId := [];
       x509.DNSNames := None;
       x509.PermittedDNSDomains := None;
       x509.CRLDistributionPoints := None;
       x509.PolicyIdentifiers := None |}
    "-- --" "www.example.com" "192.0.2.1" Mozilla_TS_name example_verdict example_now
  = Panic.
Proof. reflexivity. Qed.

(** *** The theorems at the example inputs *)

(** C1 as stated fails: the certificate [CertToStored] returns for the
    example leaf has one key in its validation map, not five. *)
Lemma leaf_validationInfo_one_key :
  ∃ stored,
    stored_example leaf_example = Ok stored
    ∧ dom (Certificate.ValidationInfo stored) = {[ Mozilla_TS_name ]}
    ∧ size (Certificate.ValidationInfo stored) = 1%nat
    ∧ size (Certificate.ValidationInfo stored) ≠ 5%nat.
Proof.
  eexists. split; [reflexivity|].
  split; [vm_compute; reflexivity|].
  split; [vm_compute; reflexivity | vm_compute; discriminate].
Qed.

Lemma validationInfo_keys_witness :
  ∃ stored,
    stored_example leaf_example = Ok stored
    ∧ Certificate.ValidationInfo stored = {[ Mozilla_TS_name := example_verdict ]}
    ∧ dom (Certificate.ValidationInfo stored) = {[ Mozilla_TS_name ]}
    ∧ size (Certificate.ValidationInfo stored) = 1%nat.
Proof.
  eexists. split; [reflexivity|].
  apply (proj2 (validationInfo_keys example_der leaf_example "-- --" "www.example.com"
                  "192.0.2.1" Mozilla_TS_name example_verdict example_now)).
  reflexivity.
Defined.

(** C2 as stated fails: the example certificate has a key of an unknown
    algorithm, and its PKPSHA256 fingerprint is 44 characters long. *)
Lemma unknown_key_pin_not_empty :
  x509.PublicKeyAlgorithm unknown_key_example = 0
  ∧ x509.PublicKey unknown_key_example = crypto.Other
  ∧ PKPSHA256Hash example_der unknown_key_example
    = "47DEQpj8HBSa+/TImW+5JCeuQeRkm5NMpJWZG3hSuFU="
  ∧ PKPSHA256Hash example_der unknown_key_example ≠ "".
Proof.
  split; [reflexivity|]. split; [reflexivity|].
  split; [vm_compute; reflexivity | vm_compute; discriminate].
Qed.

Lemma PKPSHA256Hash_unknown_key_witness :
  x509.PublicKey unknown_key_example = crypto.Other
  ∧ PKPSHA256Hash example_der unknown_key_example
    = base64.EncodeToString (sha256.Sum256 [])
  ∧ PKPSHA256Hash example_der unknown_key_example
    = "47DEQpj8HBSa+/TImW+5JCeuQeRkm5NMpJWZG3hSuFU=".
Proof.
  split; [reflexivity|].
  apply (PKPSHA256Hash_unknown_key example_der unknown_key_example). reflexivity.
Defined.

Lemma CertToStored_ca_witness :
  ∃ stored,
    stored_example ca_example = Ok stored
    ∧ (Certificate.CA stored = true ↔
         (x509.Version ca_example < 3 ∧ x509.IsCA ca_example = true)
         ∨ (3 ≤ x509.Version ca_example
            ∧ x509.BasicConstraintsValid ca_example = true
            ∧ x509.IsCA ca_example = true)).
Proof.
  eexists. split; [reflexivity|].
  apply (CertToStored_ca example_der ca_example "-- --" "www.example.com"
           "192.0.2.1" Mozilla_TS_name example_verdict example_now).
  reflexivity.
Defined.

(** C4 as stated fails: a certificate whose version is 4 is not a version 3
    certificate, and is stored with the display string "Critical". *)
Lemma v4_basicConstraints_Critical :
  ∃ stored,
    stored_example v4_example = Ok stored
    ∧ Certificate.X509v3BasicConstraints stored = "Critical"
    ∧ x509.Version v4_example = 4
    ∧ ¬ (x509.Version v4_example = 3 ∧ x509.BasicConstraintsValid v4_example = true).
Proof.
  eexists. split; [reflexivity|]. split; [reflexivity|]. split; [reflexivity|].
  intros [Hv _]. discriminate Hv.
Qed.

Lemma CertToStored_basicConstraints_witness :
  ∃ stored,
    stored_example v4_example = Ok stored
    ∧ (Certificate.X509v3BasicConstraints stored = "Critical" ↔
         3 ≤ x509.Version v4_example ∧ x509.BasicConstraintsValid v4_example = true)
    ∧ (Certificate.X509v3BasicConstraints stored = "Critical"
       ∨ Certificate.X509v3BasicConstraints stored = "").
Proof.
  eexists. split; [reflexivity|].
  apply (CertToStored_basicConstraints example_der v4_example "-- --" "www.example.com"
           "192.0.2.1" Mozilla_TS_name example_verdict example_now).
  reflexivity.
Defined.

Lemma CertToStored_ca_no_target_witness :
  ∃ stored,
    stored_example ca_example = Ok stored
    ∧ Certificate.CA stored = true
    ∧ Certificate.ScanTarget stored = ""
    ∧ Certificate.IPs stored = Some [].
Proof.
  eexists. split; [reflexivity|]. split; [reflexivity|].
  apply (CertToStored_ca_no_target example_der ca_example "-- --" "www.example.com"
           "192.0.2.1" Mozilla_TS_name example_verdict example_now);
    reflexivity.
Defined.

(** C6 as stated fails: the names of the example leaf carry no country, the
    parser leaves the list nil, and the stored subject's Country is nil. *)
Lemma leaf_country_nil :
  ∃ stored,
    stored_example leaf_example = Ok stored
    ∧ elems (Subject.Country (Certificate.Subject stored)) = []
    ∧ Subject.Country (Certificate.Subject stored) = None
    ∧ Subject.Country (Certificate.Subject stored) ≠ Some [].
Proof.
  eexists. split; [reflexivity|]. split; [reflexivity|]. split; [reflexivity|].
  discriminate.
Qed.

Lemma CertToStored_lists_witness :
  ∃ stored,
    stored_example leaf_example = Ok stored
    ∧ is_Some (Certificate.IPs stored)
    ∧ Certificate.ParentSignature stored = Some ["-- --"]
    ∧ is_Some (Extensions.PermittedNames (Certificate.X509v3Extensions stored))
    ∧ Subject.Country (Certificate.Subject stored)
      = pkix.Country (x509.Subject leaf_example).
Proof.
  eexists. split; [reflexivity|].
  pose proof (CertToStored_lists example_der leaf_example "-- --" "www.example.com"
                "192.0.2.1" Mozilla_TS_name example_verdict example_now _ eq_refl)
    as ((Hips & Hparent & _ & _ & Hpermitted & _) & (Hcountry & _)).
  exact (conj Hips (conj Hparent (conj Hpermitted Hcountry))).
Defined.

Lemma Subject_String_spec_witness :
  components subject_example = ["C=US"; "C=DE"; "OU=Web"] ++ ["CN=www.example.com"]
  ∧ Subject.String subject_example
    = separated ["C=US"; "C=DE"; "OU=Web"] "CN=www.example.com".
Proof.
  split; [reflexivity|].
  apply (proj2 (proj2 (Subject_String_spec subject_example))). reflexivity.
Defined.

Lemma CertToStored_total_witness :
  (length SignatureAlgorithm = 13%nat ∧ length ExtKeyUsage = 12%nat
   ∧ length PublicKeyAlgorithm = 4%nat)
  ∧ (∃ name,
       array_index SignatureAlgorithm (x509.SignatureAlgorithm leaf_example) = Ok name)
  ∧ Forall (λ eku, ∃ name, array_index ExtKeyUsage eku = Ok name)
      (elems (x509.ExtKeyUsage leaf_example))
  ∧ (∃ name,
       array_index PublicKeyAlgorithm (x509.PublicKeyAlgorithm leaf_example) = Ok name)
  ∧ ∃ stored, stored_example leaf_example = Ok stored.
Proof.
  apply (CertToStored_total example_der leaf_example "-- --" "www.example.com"
           "192.0.2.1" Mozilla_TS_name example_verdict example_now).
  - cbn. lia.
  - repeat constructor; cbn; lia.
  - cbn. lia.
Defined.

(** *** The further properties at the example inputs *)

Lemma GetBooleanValidity_GetValidityMap_witness :
  Certificate.GetBooleanValidity
    (stored_with subject_example subject_example
       (GetValidityMap true false true false true))
  = (true, false, true, false, true).
Proof. apply GetBooleanValidity_GetValidityMap. reflexivity. Defined.

Lemma CertToStored_GetBooleanValidity_witness :
  ∃ stored,
    stored_example leaf_example = Ok stored
    ∧ Certificate.GetBooleanValidity stored
      = (bool_decide (Mozilla_TS_name = Ubuntu_TS_name) && true,
         bool_decide (Mozilla_TS_name = Mozilla_TS_name) && true,
         bool_decide (Mozilla_TS_name = Microsoft_TS_name) && true,
         bool_decide (Mozilla_TS_name = Apple_TS_name) && true,
         bool_decide (Mozilla_TS_name = Android_TS_name) && true).
Proof.
  eexists. split; [reflexivity|].
  apply (CertToStored_GetBooleanValidity example_der leaf_example "-- --"
           "www.example.com" "192.0.2.1" Mozilla_TS_name example_verdict example_now).
  reflexivity.
Defined.

Lemma getExtKeyUsages_elems_witness :
  ∃ usage,
    getExtKeyUsages leaf_example = Ok usage
    ∧ ∃ names,
        Forall2 (λ eku name, 0 ≤ eku ∧ ExtKeyUsage !! Z.to_nat eku = Some name)
          (elems (x509.ExtKeyUsage leaf_example)) names
        ∧ usage
          = Some (names ++ (asn1.String <$> elems (x509.UnknownExtKeyUsage leaf_example))).
Proof.
  eexists. split; [reflexivity|].
  apply (getExtKeyUsages_elems leaf_example). reflexivity.
Defined.

Lemma CertToStored_IsNameConstrained_witness :
  ∃ stored,
    stored_example leaf_example = Ok stored
    ∧ (Extensions.IsNameConstrained (Certificate.X509v3Extensions stored) = true
       ↔ elems (Extensions.PermittedNames (Certificate.X509v3Extensions stored)) ≠ [])
    ∧ (Extensions.IsNameConstrained (Certificate.X509v3Extensions stored) = true
       ↔ elems (x509.PermittedDNSDomains leaf_example) ≠ []).
Proof.
  eexists. split; [reflexivity|].
  apply (CertToStored_IsNameConstrained example_der leaf_example "-- --"
           "www.example.com" "192.0.2.1" Mozilla_TS_name example_verdict example_now).
  reflexivity.
Defined.

Lemma CertToStored_extension_lists_witness :
  ∃ stored,
    stored_example leaf_example = Ok stored
    ∧ Extensions.SubjectAlternativeName (Certificate.X509v3Extensions stored)
      = Some ["www.example.com"]
    ∧ Extensions.PermittedNames (Certificate.X509v3Extensions stored) = Some [].
Proof.
  eexists. split; [reflexivity|].
  pose proof (CertToStored_extension_lists example_der leaf_example "-- --"
                "www.example.com" "192.0.2.1" Mozilla_TS_name example_verdict
                example_now _ eq_refl)
    as (Hnames & _ & Hpermitted & _).
  exact (conj Hnames Hpermitted).
Defined.

Lemma CertToStored_Serial_witness :
  ∃ stored,
    stored_example leaf_example = Ok stored
    ∧ Certificate.Serial stored = "1000"
    ∧ upper_hex (Certificate.Serial stored).
Proof.
  eexists. split; [reflexivity|].
  pose proof (CertToStored_Serial example_der leaf_example "-- --"
                "www.example.com" "192.0.2.1" Mozilla_TS_name example_verdict
                example_now _ eq_refl)
    as (Hserial & Hupper & _).
  exact (conj Hserial Hupper).
Defined.

Lemma CertToStored_IsSelfSigned_witness :
  ∃ stored,
    stored_example leaf_example = Ok stored
    ∧ Certificate.IsSelfSigned stored = Ok false.
Proof.
  eexists. split; [reflexivity|].
  exact (CertToStored_IsSelfSigned example_der leaf_example "-- --"
           "www.example.com" "192.0.2.1" Mozilla_TS_name example_verdict
           example_now _ eq_refl).
Defined.

Lemma ToX509_CertToStored_witness :
  ∃ stored,
    stored_example leaf_example = Ok stored
    ∧ base64.DecodeString (Certificate.Raw stored) = (x509.Raw leaf_example, None)
    ∧ ToX509 example_parser stored = (Some leaf_example, None).
Proof.
  eexists. split; [reflexivity|].
  exact (ToX509_CertToStored example_parser example_der leaf_example "-- --"
           "www.example.com" "192.0.2.1" Mozilla_TS_name example_verdict
           example_now _ eq_refl).
Defined.

Lemma CertToStored_unbacked_ca_witness :
  ∃ stored,
    stored_example unbacked_ca_example = Ok stored
    ∧ x509.IsCA unbacked_ca_example = true
    ∧ Certificate.CA stored = false
    ∧ Certificate.X509v3BasicConstraints stored = ""
    ∧ Certificate.ScanTarget stored = ""
    ∧ Certificate.IPs stored = Some [].
Proof.
  eexists. split; [reflexivity|]. split; [reflexivity|].
  apply (CertToStored_unbacked_ca example_der unbacked_ca_example "-- --"
           "www.example.com" "192.0.2.1" Mozilla_TS_name example_verdict example_now);
    [reflexivity | cbn; lia | reflexivity | reflexivity].
Defined.

Lemma getPublicKeyInfo_no_error_witness :
  ∃ key err,
    getPublicKeyInfo unknown_key_example = Ok (key, err)
    ∧ err = None
    ∧ SubjectPublicKeyInfo.Alg key = "UnknownPublicKeyAlgorithm"
    ∧ SubjectPublicKeyInfo.Size key = 0.
Proof.
  do 2 eexists. split; [reflexivity|].
  pose proof (getPublicKeyInfo_no_error unknown_key_example _ _ eq_refl)
    as (Herr & _ & Hzero).
  split; [exact Herr|]. split; [reflexivity|]. exact (proj1 (Hzero eq_refl)).
Defined.

Lemma CertToStored_times_witness :
  ∃ stored,
    stored_example leaf_example = Ok stored
    ∧ Certificate.FirstSeenTimestamp stored = Certificate.LastSeenTimestamp stored
    ∧ time.instant (Certificate.FirstSeenTimestamp stored) = 1500.
Proof.
  eexists. split; [reflexivity|].
  pose proof (CertToStored_times example_der leaf_example "-- --"
                "www.example.com" "192.0.2.1" Mozilla_TS_name example_verdict
                example_now _ eq_refl)
    as (Hsame & Hnow & _).
  exact (conj Hsame Hnow).
Defined.
